(** * News scraper: extraction engine of [NewsScraper/server.js] and its variants

    The repository holds three copies of one scraping request handler:
    - the base server ([NewsScraper/server.js], route [/api/scrape]);
    - the extended server (second half of the unnamed part 002), which adds
      body extraction and rewrites title/author/date as [for ... break] loops;
    - the capped serverless function (unnamed part 001), which keeps at most
      ten links and emits a smaller record.

    JavaScript strings are modelled as [string]: a character stands for one
    code unit in the range U+0000..U+00FF.  The HTML parser (cheerio), the
    HTTP client (axios), the URL class and the Date class are libraries the
    handler calls; they enter the development as parameters of a section and
    only the handler's own control flow and string tests are defined here. *)

From Stdlib Require Import String Ascii List Bool Arith ZArith Lia.
From Stdlib Require Import Numbers.DecimalString.
Import ListNotations.
Open Scope string_scope.

(** ** JavaScript string primitives used by the handler *)

Module JsString.

(** [s.startsWith(p)] *)
Fixpoint startsWith (p s : string) : bool :=
  match p with
  | EmptyString => true
  | String a p' =>
      match s with
      | EmptyString => false
      | String b s' => Ascii.eqb a b && startsWith p' s'
      end
  end.

(** [s.includes(needle)] *)
Fixpoint includes (needle s : string) : bool :=
  startsWith needle s ||
  match s with
  | EmptyString => false
  | String _ s' => includes needle s'
  end.

(** White space removed by [trim]: TAB, LF, VT, FF, CR, SPACE and NBSP. *)
Definition is_space (c : ascii) : bool :=
  let n := nat_of_ascii c in
  ((9 <=? n)%nat && (n <=? 13)%nat) || (n =? 32)%nat || (n =? 160)%nat.

Fixpoint trimStart (s : string) : string :=
  match s with
  | EmptyString => EmptyString
  | String c s' => if is_space c then trimStart s' else s
  end.

(** [trimEnd] drops the trailing white space: a character is kept when
    something non-blank follows it or it is itself non-blank. *)
Fixpoint trimEnd (s : string) : string :=
  match s with
  | EmptyString => EmptyString
  | String c s' =>
      match trimEnd s' with
      | EmptyString => if is_space c then EmptyString else String c EmptyString
      | t => String c t
      end
  end.

(** [s.trim()] *)
Definition trim (s : string) : string := trimEnd (trimStart s).

(** Truthiness of a string: [if (s)] holds for every non-empty string. *)
Definition truthy (s : string) : bool :=
  match s with EmptyString => false | _ => true end.

(** [s.split(sep)[0]] for a one-character separator. *)
Fixpoint split_first (sep : ascii) (s : string) : string :=
  match s with
  | EmptyString => EmptyString
  | String c s' => if Ascii.eqb c sep then EmptyString else String c (split_first sep s')
  end.

Definition is_digit (c : ascii) : bool :=
  let n := nat_of_ascii c in (48 <=? n)%nat && (n <=? 57)%nat.

(** Line terminators, which [.] of a regular expression does not match. *)
Definition is_line_terminator (c : ascii) : bool :=
  let n := nat_of_ascii c in (n =? 10)%nat || (n =? 13)%nat.

Definition upper (c : ascii) : ascii :=
  let n := nat_of_ascii c in
  if (97 <=? n)%nat && (n <=? 122)%nat then ascii_of_nat (n - 32) else c.

(** A pattern letter under the [i] flag: the letter itself or its capital. *)
Definition ci (p c : ascii) : bool := Ascii.eqb c p || Ascii.eqb c (upper p).

(** Template literal [${n}] of an integer status code. *)
Definition of_Z (n : Z) : string := NilEmpty.string_of_int (Z.to_int n).

End JsString.
Import JsString.

(** ** Regular expressions of the handler

    A backtracking matcher in continuation-passing style: alternatives are
    tried left to right, optional and starred parts are greedy, and the
    continuation decides whether the rest of the pattern accepts what is
    left, so that a failure further right re-enters earlier choices, as the
    JavaScript matcher does. *)

Module Regex.

Inductive regex : Type :=
| Eps
| Chr (p : ascii -> bool)
| Seq (r1 r2 : regex)
| Alt (r1 r2 : regex)
| Opt (r : regex)
| StarC (p : ascii -> bool)
| Eos.

Fixpoint star_k (p : ascii -> bool) (s : string) (k : string -> option string)
  : option string :=
  match s with
  | String c s' =>
      if p c
      then match star_k p s' k with
           | Some r => Some r
           | None => k s
           end
      else k s
  | EmptyString => k s
  end.

Fixpoint rmatch (r : regex) (s : string) (k : string -> option string)
  : option string :=
  match r with
  | Eps => k s
  | Chr p =>
      match s with
      | String c s' => if p c then k s' else None
      | EmptyString => None
      end
  | Seq r1 r2 => rmatch r1 s (fun s' => rmatch r2 s' k)
  | Alt r1 r2 =>
      match rmatch r1 s k with
      | Some x => Some x
      | None => rmatch r2 s k
      end
  | Opt r1 =>
      match rmatch r1 s k with
      | Some x => Some x
      | None => k s
      end
  | StarC p => star_k p s k
  | Eos =>
      match s with
      | EmptyString => k s
      | String _ _ => None
      end
  end.

(** [s.match(r)]: the leftmost match, as the matched substring ([m[0]]). *)
Fixpoint exec (r : regex) (s : string) : option string :=
  match rmatch r s Some with
  | Some rest => Some (substring 0 (String.length s - String.length rest) s)
  | None =>
      match s with
      | EmptyString => None
      | String _ s' => exec r s'
      end
  end.

Definition test (r : regex) (s : string) : bool :=
  match exec r s with Some _ => true | None => false end.

(** Literal text, character by character. *)
Fixpoint lit (w : string) : regex :=
  match w with
  | EmptyString => Eps
  | String c w' => Seq (Chr (Ascii.eqb c)) (lit w')
  end.

(** Literal text under the [i] flag. *)
Fixpoint lit_ci (w : string) : regex :=
  match w with
  | EmptyString => Eps
  | String c w' => Seq (Chr (ci c)) (lit_ci w')
  end.

Definition digit : regex := Chr is_digit.
Definition digits2 : regex := Seq digit digit.
Definition digits4 : regex := Seq digits2 digits2.
(** [\d{1,2}] *)
Definition digits1_2 : regex := Seq digit (Opt digit).
(** [[-/]] *)
Definition dash_or_slash : regex :=
  Chr (fun c => Ascii.eqb c "-" || Ascii.eqb c "/").

(** [/\d{4}\/\d{2}\/\d{2}/] *)
Definition re_date_path : regex :=
  Seq digits4 (Seq (lit "/") (Seq digits2 (Seq (lit "/") digits2))).

(** The image test of line 359, flag [i]: a dot, one of [jpg], [jpeg], [png],
    [gif], [webp], optionally [?] and any run of characters other than line
    terminators, then the end of the subject. *)
Definition re_image_ext : regex :=
  Seq (lit ".")
    (Seq (Alt (lit_ci "jpg") (Alt (lit_ci "jpeg") (Alt (lit_ci "png")
            (Alt (lit_ci "gif") (lit_ci "webp")))))
       (Seq (Opt (Seq (lit "?") (StarC (fun c => negb (is_line_terminator c)))))
          Eos)).

(** [/(\d{4}[-/]\d{1,2}[-/]\d{1,2})|(\d{1,2}[-/]\d{1,2}[-/]\d{4})/] *)
Definition re_date_text : regex :=
  Alt (Seq digits4 (Seq dash_or_slash (Seq digits1_2 (Seq dash_or_slash digits1_2))))
      (Seq digits1_2 (Seq dash_or_slash (Seq digits1_2 (Seq dash_or_slash digits4)))).

(** What a pattern accepts: [den r s1 s2] says that [r] can consume [s1]
    when [s2] is what follows it in the subject. *)
Fixpoint den (r : regex) (s1 s2 : string) : Prop :=
  match r with
  | Eps => s1 = EmptyString
  | Chr p => exists c, s1 = String c EmptyString /\ p c = true
  | Seq r1 r2 =>
      exists a b, s1 = a ++ b /\ den r1 a (b ++ s2) /\ den r2 b s2
  | Alt r1 r2 => den r1 s1 s2 \/ den r2 s1 s2
  | Opt r1 => s1 = EmptyString \/ den r1 s1 s2
  | StarC p => forall c, In c (list_ascii_of_string s1) -> p c = true
  | Eos => s1 = EmptyString /\ s2 = EmptyString
  end.

End Regex.
Import Regex.

(** ** URL classification (link discovery, lines 221-224 of the base server) *)

(** The condition under which a resolved link is kept. *)
Definition looksLikeArticle (absoluteUrl : string) : bool :=
  includes "/news/" absoluteUrl
  || includes "/article/" absoluteUrl
  || includes "/story/" absoluteUrl
  || Regex.test re_date_path absoluteUrl.

(** ** Documents as cheerio presents them

    An element carries what the handler reads from it: its text content,
    its attributes and the anchors below it ([$element.find('a')]).  A
    document answers a selector with the matching elements in document
    order; which elements a selector matches is cheerio's business. *)

#[local] Set Warnings "-register-all".
Inductive Element : Type :=
  mkElement (el_text : string) (el_attrs : list (string * string))
            (el_anchors : list Element).

(** [$(e).text()] *)
Definition text (e : Element) : string :=
  match e with mkElement t _ _ => t end.

Definition attrs (e : Element) : list (string * string) :=
  match e with mkElement _ a _ => a end.

(** [$(e).find('a')] *)
Definition find_a (e : Element) : list Element :=
  match e with mkElement _ _ l => l end.

Fixpoint assoc {A : Type} (k : string) (l : list (string * A)) : option A :=
  match l with
  | [] => None
  | (k', v) :: l' => if String.eqb k k' then Some v else assoc k l'
  end.

(** [$(e).attr(name)]; [None] is [undefined]. *)
Definition attr (name : string) (e : Element) : option string :=
  assoc name (attrs e).

Record Document : Type := mkDocument { select : string -> list Element }.

(** [$(sel).first()]; [None] is the empty selection ([.length === 0]). *)
Definition first (d : Document) (sel : string) : option Element :=
  hd_error (select d sel).

(** [$(sel).first().text()]: the empty selection has the empty text. *)
Definition first_text (d : Document) (sel : string) : string :=
  match first d sel with
  | Some e => text e
  | None => EmptyString
  end.

(** A document given by the table of its selections. *)
Definition document_of (t : list (string * list Element)) : Document :=
  mkDocument (fun sel => match assoc sel t with Some l => l | None => [] end).

(** ** The selector registry *)

Record Profile : Type := mkProfile {
  article : list string;
  title : list string;
  author : list string;
  date : list string;
  image : list string
}.

(** What a property read on the registry object can give: an entry of the
    literal, a member inherited from [Object.prototype], or [undefined]. *)
Inductive JsValue : Type :=
| JsProfile (p : Profile)
| JsInherited (name : string)
| JsUndefined.

(** The members every object literal inherits. *)
Definition object_prototype_keys : list string :=
  [ "constructor"; "__proto__"; "hasOwnProperty"; "isPrototypeOf";
    "propertyIsEnumerable"; "toLocaleString"; "toString"; "valueOf";
    "__defineGetter__"; "__defineSetter__"; "__lookupGetter__";
    "__lookupSetter__" ].

(** [obj[k]] for an object literal [obj] with the given own entries: own
    properties first, then the prototype. *)
Definition js_get (own : list (string * Profile)) (k : string) : JsValue :=
  match assoc k own with
  | Some p => JsProfile p
  | None =>
      if existsb (String.eqb k) object_prototype_keys
      then JsInherited k else JsUndefined
  end.

(** [a || b] on property reads: entries and inherited members are truthy. *)
Definition js_or (a b : JsValue) : JsValue :=
  match a with
  | JsUndefined => b
  | _ => a
  end.

(** An attribute selector [tag[name="value"]] with its quotation marks. *)
Definition attr_selector (tag name value : string) : string :=
  tag ++ "[" ++ name ++ "=" ++ String "034" value ++ String "034" "]".

Definition abs_cbn_title : list string :=
  [ ".news-title"; ".article-title"; ".story-title"; "h2"; "h3"; "h1";
    ".news-list__title"; ".news-list__headline"; ".news-list__heading";
    ".news-list__name"; ".news-list__label"; ".news-list__text";
    ".news-list__content h1"; ".news-list__content h2";
    ".news-list__content h3"; ".news-list__content h4";
    ".news-list__content h5"; ".news-list__content h6" ].

Definition abs_cbn_author : list string :=
  [ ".author"; ".byline"; ".writer"; ".article-author";
    attr_selector "span" "itemprop" "author"; "span.author"; "div.author";
    attr_selector "meta" "name" "author"; attr_selector "meta" "property" "article:author";
    ".news-list__author"; ".news-list__byline"; ".news-list__writer";
    ".news-list__contributor"; ".news-list__reporter";
    ".news-list__journalist" ].

Definition abs_cbn_date : list string :=
  [ ".date"; ".timestamp"; ".article-date"; ".publish-date"; "time";
    attr_selector "span" "itemprop" "datePublished"; "span.date"; attr_selector "meta" "name" "pubdate";
    attr_selector "meta" "property" "article:published_time"; ".news-list__date";
    ".news-list__time"; ".news-list__timestamp"; ".news-list__published";
    ".news-list__posted"; ".news-list__updated" ].

Definition abs_cbn_image : list string :=
  [ "img.news-image"; "img.article-image"; "img.story-image";
    ".news-image img"; ".article-image img"; ".story-image img";
    ".news-list__image img"; ".news-list__photo img";
    ".news-list__thumbnail img"; ".news-list__media img";
    ".news-list__picture img"; ".news-list__illustration img";
    ".news-list__graphic img"; ".news-list__banner img";
    ".news-list__cover img" ].

(** The tail shared by the two [abs-cbn.com] container lists. *)
Definition abs_cbn_article_tail : list string :=
  [ ".news-list__item"; ".news-list__article"; ".news-list__card";
    ".news-list__story"; ".news-list__content"; ".news-list__wrapper";
    ".news-list__container"; ".news-list__grid"; ".news-list__row";
    ".news-list__col"; ".news-list__box"; ".news-list__panel";
    ".news-list__block"; ".news-list__section" ].

Definition abs_cbn_article_head : list string :=
  [ ".news-item"; ".article-item"; ".news-card"; ".story-card"; "article" ].

Definition default_profile : Profile :=
  {| article := [ "article"; ".article"; ".post"; ".news-item"; ".story";
                  ".news-story"; ".news-article"; ".content"; ".main-content" ];
     title := [ "h1"; "h2"; ".title"; ".headline"; ".story-title";
                ".article-title"; "h3" ];
     author := [ ".author"; ".byline"; ".writer"; ".author-name";
                 ".article-author"; ".contributor"; attr_selector "span" "itemprop" "author";
                 "span.author"; "div.author"; attr_selector "meta" "name" "author";
                 attr_selector "meta" "property" "article:author" ];
     date := [ ".date"; ".published"; ".timestamp"; "time"; ".article-date";
               ".publish-date"; ".posted-on"; attr_selector "span" "itemprop" "datePublished";
               "span.date"; attr_selector "meta" "name" "pubdate";
               attr_selector "meta" "property" "article:published_time" ];
     image := [ "img.featured-image"; "img.article-image"; "img.news-image";
                ".featured-image img"; ".article-image img"; ".news-image img";
                attr_selector "img" "src*" "news"; attr_selector "img" "src*" "article" ] |}.

(** The registry of the base and extended servers. *)
Definition websiteSelectors : list (string * Profile) :=
  [ ("abs-cbn.com",
     {| article := abs_cbn_article_head ++ ".news-list-item" :: abs_cbn_article_tail;
        title := abs_cbn_title;
        author := abs_cbn_author;
        date := abs_cbn_date;
        image := abs_cbn_image |});
    ("default", default_profile) ].

(** The registry of the capped function: the same but for one container
    selector, [.news-list-item], which it lacks. *)
Definition websiteSelectors_capped : list (string * Profile) :=
  [ ("abs-cbn.com",
     {| article := abs_cbn_article_head ++ abs_cbn_article_tail;
        title := abs_cbn_title;
        author := abs_cbn_author;
        date := abs_cbn_date;
        image := abs_cbn_image |});
    ("default", default_profile) ].

(** [registry[hostname] || registry.default] (line 202; capped: line 190) *)
Definition profileFor_in (registry : list (string * Profile)) (hostname : string)
  : JsValue :=
  js_or (js_get registry hostname) (js_get registry "default").

Definition profileFor : string -> JsValue := profileFor_in websiteSelectors.

(** ** The HTTP client *)

(** What the network does with a GET: a response with a status and a body,
    no response at all (time-out, refused connection, failed name lookup),
    or a request that could not be sent. *)
Inductive NetResult : Type :=
| HttpResponse (status : Z) (data : string)
| NoResponse
| NotSent.

(** What the handler can catch: an axios error carrying [error.response],
    one carrying only [error.request], or any other exception. *)
Inductive Exn : Type :=
| AxiosResponseError (status : Z)
| AxiosRequestError
| OtherError.

(** The [validateStatus] option passed for every request of the servers. *)
Definition validateStatus (status : Z) : bool :=
  (200 <=? status)%Z && (status <? 500)%Z.

(** The [validateStatus] axios uses when none is given. *)
Definition validateStatus_default (status : Z) : bool :=
  (200 <=? status)%Z && (status <? 300)%Z.

(** [await axios.get(url, { validateStatus })]: a response whose status the
    option rejects is thrown with the response attached. *)
Definition axios_get (validate : Z -> bool) (r : NetResult) : Exn + (Z * string) :=
  match r with
  | HttpResponse status data =>
      if validate status then inr (status, data)
      else inl (AxiosResponseError status)
  | NoResponse => inl AxiosRequestError
  | NotSent => inl OtherError
  end.

(** ** Replies and records *)

Record NewsItem : Type := mkNewsItem {
  item_title : string;
  item_author : string;
  item_date : string;
  item_source : string;
  item_url : string;
  item_imageUrl : option string   (* [None] is [null] *)
}.

(** The record of the extended server: one more field, [content]. *)
Record ExtendedItem : Type := mkExtendedItem {
  ext_item : NewsItem;
  ext_content : option string
}.

(** The record of the capped function; [None] for [image] is [undefined]. *)
Record CappedItem : Type := mkCappedItem {
  c_title : string;
  c_author : string;
  c_date : string;
  c_image : option string;
  c_url : string
}.

(** [res.status(n).json({ error })], or [res.json({ news })] with its
    default status 200. *)
Inductive Reply (A : Type) : Type :=
| ReplyError (status : Z) (error : string)
| ReplyNews (news : list A).
Arguments ReplyError {A} status error.
Arguments ReplyNews {A} news.

Definition reply_status {A : Type} (r : Reply A) : Z :=
  match r with
  | ReplyError status _ => status
  | ReplyNews _ => 200%Z
  end.

(** Lines written to the console that the development follows. *)
Inductive LogEntry : Type :=
| LogInvalidArticleUrl (href : string)
| LogGeneralApproach
| LogErrorFetchingArticle (articleUrl : string).

Definition msg_url_required : string := "URL is required".
Definition msg_invalid_url : string := "Invalid URL format".
Definition msg_forbidden : string :=
  "Access to this website is forbidden. The website might be blocking scraping attempts.".
Definition msg_failed_status (status : Z) : string :=
  "Failed to fetch the website. Status code: " ++ of_Z status.
Definition msg_no_articles : string :=
  "No news articles found. The website might use a different structure or dynamic loading.".
Definition msg_server_responded (status : Z) : string :=
  "Server responded with status " ++ of_Z status.
Definition msg_no_response : string :=
  "No response received from the website. Please check the URL and try again.".
Definition msg_setup : string :=
  "Error setting up the request. Please try again.".

(** The outer [catch] of the servers (lines 428-444). *)
Definition catch_reply {A : Type} (error : Exn) : Reply A :=
  match error with
  | AxiosResponseError status => ReplyError status (msg_server_responded status)
  | AxiosRequestError => ReplyError 500 msg_no_response
  | OtherError => ReplyError 500 msg_setup
  end.

(** [set.add(x)] on a [Set] kept in insertion order. *)
Definition set_add (x : string) (set : list string) : list string :=
  if existsb (String.eqb x) set then set else set ++ [x].

(** The first defined result of [f] along a list: a loop left by [break]
    (or by a test on its result) at the first success. *)
Fixpoint first_success {A B : Type} (f : A -> option B) (l : list A) : option B :=
  match l with
  | [] => None
  | x :: l' =>
      match f x with
      | Some y => Some y
      | None => first_success f l'
      end
  end.

(** ** The libraries the handler calls *)

Class Platform : Type := {
  (** [cheerio.load(data)] *)
  cheerio_load : string -> Document;
  (** the document after [$(sel).first().find(unwanted).remove()] *)
  cheerio_remove : Document -> string -> string -> Document;
  (** [new URL(url).hostname]; [None] when the constructor throws *)
  URL_hostname : string -> option string;
  (** [new URL(href, base).href]; [None] when the constructor throws *)
  URL_href : string -> string -> option string;
  (** [new Date(s).toISOString()]; [None] when [getTime()] is [NaN] *)
  Date_toISOString : string -> option string;
  (** [new Date().toISOString()] at the moment the article at the given
      address is emitted *)
  now : string -> string;
  (** the exchange the network has with each address; the article loop
      requests every address once, and an address that is both the list
      page and one of its links is taken to answer the same both times *)
  http : string -> NetResult;
  (** [error.message] *)
  exn_message : Exn -> string
}.

Section Engine.

Context {P : Platform}.

(** [src.startsWith('http') ? src : new URL(src, base).href] *)
Definition absolute (base src : string) : option string :=
  if startsWith "http" src then Some src else URL_href src base.

(** *** Link discovery (lines 207-255) *)

(** The body of [links.each]: one anchor against the running set. *)
Definition consider_link (url : string) (st : list string * list LogEntry)
  (link : Element) : list string * list LogEntry :=
  match attr "href" link with
  | Some href =>
      if truthy href then
        match absolute url href with
        | Some absoluteUrl =>
            if looksLikeArticle absoluteUrl
            then (set_add absoluteUrl (fst st), snd st)
            else st
        | None => (fst st, (snd st ++ [LogInvalidArticleUrl href])%list)
        end
      else st
  | None => st
  end.

Definition scan_links (url : string) (st : list string * list LogEntry)
  (links : list Element) : list string * list LogEntry :=
  fold_left (consider_link url) links st.

(** [selectors.article.forEach(...)]: every container of every selector. *)
Definition selector_pass (page : Document) (url : string)
  (articleSelectors : list string) : list string * list LogEntry :=
  fold_left
    (fun st articleSelector =>
       fold_left (fun st' element => scan_links url st' (find_a element))
                 (select page articleSelector) st)
    articleSelectors ([], []).

(** The selector pass, then the scan of every anchor when
    [articleLinks.size === 0]. *)
Definition discover (page : Document) (url : string)
  (articleSelectors : list string) : list string * list LogEntry :=
  let st := selector_pass page url articleSelectors in
  if (List.length (fst st) =? 0)%nat
  then scan_links url (fst st, (snd st ++ [LogGeneralApproach])%list) (select page "a")
  else st.

(** The capped function has the same two passes and writes no line before
    the second. *)
Definition discover_capped (page : Document) (url : string)
  (articleSelectors : list string) : list string * list LogEntry :=
  let st := selector_pass page url articleSelectors in
  if (List.length (fst st) =? 0)%nat
  then scan_links url st (select page "a")
  else st.

(** *** Text fields of the base server (lines 275-314) *)

(** [selectors.title.forEach]: every non-empty find overwrites [title]. *)
Definition title_step (articleDoc : Document) (title selector : string) : string :=
  let found := trim (first_text articleDoc selector) in
  if truthy found then found else title.

Definition title_of_selectors (articleDoc : Document) (selectors : list string)
  : string :=
  fold_left (title_step articleDoc) selectors EmptyString.

Definition any_heading : string := "h1, h2, h3, h4, h5, h6".

Definition base_title (articleDoc : Document) (selectors : list string) : string :=
  let title := title_of_selectors articleDoc selectors in
  if truthy title then title else trim (first_text articleDoc any_heading).

(** What one selector contributes to author or date: the [content]
    attribute for a selector starting with [meta], the trimmed text
    otherwise; [None] when the selection is empty or the value is. *)
Definition meta_or_text (articleDoc : Document) (selector : string) : option string :=
  match first articleDoc selector with
  | Some found =>
      if startsWith "meta" selector then
        match attr "content" found with
        | Some content => if truthy content then Some content else None
        | None => None
        end
      else
        let t := trim (text found) in
        if truthy t then Some t else None
  | None => None
  end.

Definition field_step (articleDoc : Document) (value selector : string) : string :=
  match meta_or_text articleDoc selector with
  | Some v => v
  | None => value
  end.

(** [selectors.author.forEach] and [selectors.date.forEach] *)
Definition field_of_selectors (articleDoc : Document) (selectors : list string)
  : string :=
  fold_left (field_step articleDoc) selectors EmptyString.

(** *** Date formatting (lines 317-337) *)

Definition formatDate (date : string) : string :=
  if truthy date then
    match Date_toISOString date with
    | Some iso => iso
    | None =>
        match Regex.exec re_date_text date with
        | Some dateMatch =>
            match Date_toISOString dateMatch with
            | Some iso => iso
            | None => EmptyString
            end
        | None => EmptyString
        end
    end
  else EmptyString.

(** *** Image (lines 340-401) *)

(** [img.attr('data-srcset')?.split(',')[0]?.trim().split(' ')[0]] *)
Definition first_srcset_url (e : Element) : option string :=
  match attr "data-srcset" e with
  | Some v => Some (split_first " " (trim (split_first "," v)))
  | None => None
  end.

Definition possibleSrcs (img : Element) : list (option string) :=
  [ attr "src" img; attr "data-src" img; attr "data-lazy-src" img;
    attr "data-original" img; attr "data-url" img; first_srcset_url img ].

(** The guard on the attribute value as written (line 355). *)
Definition src_guard (src : string) : bool :=
  truthy src && negb (startsWith "data:" src) && negb (includes "svg" src).

(** One turn of [for (const src of possibleSrcs)]: the address the
    candidate is accepted as, if it is. *)
Definition accept_src (articleUrl : string) (candidate : option string)
  : option string :=
  match candidate with
  | Some src =>
      if src_guard src then
        match absolute articleUrl src with
        | Some absoluteUrl =>
            if Regex.test re_image_ext absoluteUrl then Some absoluteUrl else None
        | None => None
        end
      else None
  | None => None
  end.

(** The inner loop, left by [break] at the first accepted candidate. *)
Definition image_of_element (articleUrl : string) (img : Element) : option string :=
  first_success (accept_src articleUrl) (possibleSrcs img).

(** What one selector contributes: the accepted source of its first
    element. *)
Definition image_of_selector (articleDoc : Document) (articleUrl selector : string)
  : option string :=
  match first articleDoc selector with
  | Some img => image_of_element articleUrl img
  | None => None
  end.

Definition image_step (articleDoc : Document) (articleUrl imageUrl selector : string)
  : string :=
  match image_of_selector articleDoc articleUrl selector with
  | Some absoluteUrl => absoluteUrl
  | None => imageUrl
  end.

(** [selectors.image.forEach]: the [break] leaves the inner loop only, and
    the callback runs for every selector. *)
Definition image_of_selectors (articleDoc : Document) (articleUrl : string)
  (selectors : list string) : string :=
  fold_left (image_step articleDoc articleUrl) selectors EmptyString.

(** The scan of every [img], left at the first success (lines 372-401). *)
Definition image_of_any (articleDoc : Document) (articleUrl : string) : string :=
  match first_success (image_of_element articleUrl) (select articleDoc "img") with
  | Some absoluteUrl => absoluteUrl
  | None => EmptyString
  end.

Definition extract_image (articleDoc : Document) (articleUrl : string)
  (selectors : list string) : string :=
  let imageUrl := image_of_selectors articleDoc articleUrl selectors in
  if truthy imageUrl then imageUrl else image_of_any articleDoc articleUrl.

(** [x || fallback] on strings *)
Definition or_else (x fallback : string) : string :=
  if truthy x then x else fallback.

(** [imageUrl || null] *)
Definition or_null (x : string) : option string :=
  if truthy x then Some x else None.

End Engine.

(** ** The base server ([NewsScraper/server.js]) *)

Module Base.
Section Handler.

Context {P : Platform}.

(** Lines 272-412: the fields of one fetched article and the guarded
    [newsItems.push]. *)
Definition extract (hostname : string) (selectors : Profile)
  (articleUrl : string) (articleDoc : Document) : option NewsItem :=
  let title := base_title articleDoc (title selectors) in
  let author := field_of_selectors articleDoc (author selectors) in
  let date := field_of_selectors articleDoc (date selectors) in
  let formattedDate := formatDate date in
  let imageUrl := extract_image articleDoc articleUrl (image selectors) in
  if truthy title then
    Some {| item_title := title;
            item_author := or_else author "Unknown";
            item_date := or_else formattedDate (now articleUrl);
            item_source := hostname;
            item_url := articleUrl;
            item_imageUrl := or_null imageUrl |}
  else None.

(** One turn of [for (const articleUrl of articleLinks)], with its
    [try ... catch]: what is pushed, and what is written to the console. *)
Definition scrape_article (hostname : string) (selectors : Profile)
  (articleUrl : string) : option NewsItem * list LogEntry :=
  match axios_get validateStatus (http articleUrl) with
  | inl _ => (None, [LogErrorFetchingArticle articleUrl])
  | inr (status, data) =>
      if (status =? 200)%Z
      then (extract hostname selectors articleUrl (cheerio_load data), [])
      else (None, [])
  end.

Definition push {A : Type} (newsItems : list A) (r : option A) : list A :=
  match r with
  | Some item => newsItems ++ [item]
  | None => newsItems
  end.

Definition scrape_articles (hostname : string) (selectors : Profile)
  (articleLinks : list string) : list NewsItem * list LogEntry :=
  fold_left
    (fun st articleUrl =>
       let r := scrape_article hostname selectors articleUrl in
       (push (fst st) (fst r), (snd st ++ snd r)%list))
    articleLinks ([], []).

(** Lines 82-427, after the list page arrived with status 200. *)
Definition scrape_page (url hostname data : string)
  : Reply NewsItem * list LogEntry :=
  let page := cheerio_load data in
  match profileFor hostname with
  | JsProfile selectors =>
      let links := discover page url (article selectors) in
      let items := scrape_articles hostname selectors (fst links) in
      let log := (snd links ++ snd items)%list in
      if (List.length (fst items) =? 0)%nat
      then (ReplyError 404 msg_no_articles, log)
      else (ReplyNews (fst items), log)
  | JsInherited _ | JsUndefined =>
      (* [selectors.article] is [undefined]: [forEach] on it throws *)
      (catch_reply OtherError, [])
  end.

(** What the handler does with the outcome of the list-page request
    (lines 60-80 and the outer [catch]). *)
Definition after_fetch (url hostname : string) (r : NetResult)
  : Reply NewsItem * list LogEntry :=
  match axios_get validateStatus r with
  | inl error => (catch_reply error, [])
  | inr (status, data) =>
      if (status =? 403)%Z then (ReplyError 403 msg_forbidden, [])
      else if negb (status =? 200)%Z
      then (ReplyError status (msg_failed_status status), [])
      else scrape_page url hostname data
  end.

(** [app.post('/api/scrape', ...)] *)
Definition handler (url : string) : Reply NewsItem * list LogEntry :=
  if negb (truthy url) then (ReplyError 400 msg_url_required, [])
  else
    match URL_hostname url with
    | None => (ReplyError 400 msg_invalid_url, [])
    | Some hostname => after_fetch url hostname (http url)
    end.

End Handler.
End Base.

(** ** The extended server (second half of part 002) *)

Module Extended.
Section Handler.

Context {P : Platform}.

(** [for (const selector of selectors) { ...; if (el.length) { v =
    el.text().trim(); break; } }]: the first selector that selects anything
    gives the value, whatever its text. *)
Definition first_match_text (articleDoc : Document) (selectors : list string)
  : string :=
  match first_success (first articleDoc) selectors with
  | Some el => trim (text el)
  | None => EmptyString
  end.

Definition contentSelectors : list string :=
  [ "article .content"; "article .article-content"; "article .story-content";
    "article .post-content"; "article .entry-content"; ".article-body";
    ".story-body"; ".post-body"; ".entry-body"; attr_selector "" "itemprop" "articleBody";
    ".article__content"; ".story__content"; ".post__content";
    ".entry__content" ].

Definition unwanted : string :=
  "script, style, iframe, .advertisement, .ad, .social-share, .related-articles".

Definition paragraphs : string :=
  "article p, .article p, .story p, .post p, .entry p".

(** The first content selector that selects anything (lines 764-772). *)
Definition content_selector (articleDoc : Document) : option string :=
  first_success
    (fun selector =>
       match first articleDoc selector with
       | Some _ => Some selector
       | None => None
       end)
    contentSelectors.

(** [texts.join('\n\n')] *)
Fixpoint join_blank (texts : list string) : string :=
  match texts with
  | [] => EmptyString
  | [t] => t
  | t :: rest => t ++ String "010" (String "010" (join_blank rest))
  end.

(** Lines 746-783: the content, and the document as the removal of the
    unwanted descendants leaves it for the image search. *)
Definition extract_content (articleDoc : Document) : string * Document :=
  let found :=
    match content_selector articleDoc with
    | Some selector =>
        let d := cheerio_remove articleDoc selector unwanted in
        (trim (first_text d selector), d)
    | None => (EmptyString, articleDoc)
    end in
  if truthy (fst found) then found
  else
    (join_blank
       (filter (fun t => negb (String.length t =? 0)%nat)
          (map (fun p => trim (text p)) (select (snd found) paragraphs))),
     snd found).

Definition extract (hostname : string) (selectors : Profile)
  (articleUrl : string) (articleDoc : Document) : option ExtendedItem :=
  let title := first_match_text articleDoc (title selectors) in
  let author := first_match_text articleDoc (author selectors) in
  let date := first_match_text articleDoc (date selectors) in
  let content := extract_content articleDoc in
  let imageUrl := extract_image (snd content) articleUrl (image selectors) in
  let formattedDate := formatDate date in
  if truthy title then
    Some {| ext_item :=
              {| item_title := title;
                 item_author := or_else author "Unknown";
                 item_date := or_else formattedDate (now articleUrl);
                 item_source := hostname;
                 item_url := articleUrl;
                 item_imageUrl := or_null imageUrl |};
            ext_content := or_null (fst content) |}
  else None.

Definition scrape_article (hostname : string) (selectors : Profile)
  (articleUrl : string) : option ExtendedItem * list LogEntry :=
  match axios_get validateStatus (http articleUrl) with
  | inl _ => (None, [LogErrorFetchingArticle articleUrl])
  | inr (status, data) =>
      if (status =? 200)%Z
      then (extract hostname selectors articleUrl (cheerio_load data), [])
      else (None, [])
  end.

Definition scrape_articles (hostname : string) (selectors : Profile)
  (articleLinks : list string) : list ExtendedItem * list LogEntry :=
  fold_left
    (fun st articleUrl =>
       let r := scrape_article hostname selectors articleUrl in
       (Base.push (fst st) (fst r), (snd st ++ snd r)%list))
    articleLinks ([], []).

Definition scrape_page (url hostname data : string)
  : Reply ExtendedItem * list LogEntry :=
  let page := cheerio_load data in
  match profileFor hostname with
  | JsProfile selectors =>
      let links := discover page url (article selectors) in
      let items := scrape_articles hostname selectors (fst links) in
      let log := (snd links ++ snd items)%list in
      if (List.length (fst items) =? 0)%nat
      then (ReplyError 404 msg_no_articles, log)
      else (ReplyNews (fst items), log)
  | JsInherited _ | JsUndefined => (catch_reply OtherError, [])
  end.

Definition after_fetch (url hostname : string) (r : NetResult)
  : Reply ExtendedItem * list LogEntry :=
  match axios_get validateStatus r with
  | inl error => (catch_reply error, [])
  | inr (status, data) =>
      if (status =? 403)%Z then (ReplyError 403 msg_forbidden, [])
      else if negb (status =? 200)%Z
      then (ReplyError status (msg_failed_status status), [])
      else scrape_page url hostname data
  end.

Definition handler (url : string) : Reply ExtendedItem * list LogEntry :=
  if negb (truthy url) then (ReplyError 400 msg_url_required, [])
  else
    match URL_hostname url with
    | None => (ReplyError 400 msg_invalid_url, [])
    | Some hostname => after_fetch url hostname (http url)
    end.

End Handler.
End Extended.

(** ** The capped serverless function (part 001) *)

Module Capped.
Section Handler.

Context {P : Platform}.

(** The reply of the function: [{ statusCode, body }]. *)
Definition CappedReply : Type := Reply CappedItem.

(** Lines 277-287: the first selector that selects anything gives [src],
    resolved when it does not start with [http]; the resolution is not
    guarded and its failure leaves the article through the [catch]. *)
Definition extract_image (articleDoc : Document) (articleUrl : string)
  (selectors : list string) : Exn + option string :=
  match first_success (first articleDoc) selectors with
  | Some imageElement =>
      match attr "src" imageElement with
      | Some image =>
          if truthy image && negb (startsWith "http" image) then
            match URL_href image articleUrl with
            | Some href => inr (Some href)
            | None => inl OtherError
            end
          else inr (Some image)
      | None => inr None
      end
  | None => inr (Some EmptyString)
  end.

(** Lines 243-297 *)
Definition extract (selectors : Profile) (articleUrl : string)
  (articleDoc : Document) : Exn + option CappedItem :=
  let title := Extended.first_match_text articleDoc (title selectors) in
  let author := Extended.first_match_text articleDoc (author selectors) in
  let date := Extended.first_match_text articleDoc (date selectors) in
  match extract_image articleDoc articleUrl (image selectors) with
  | inl error => inl error
  | inr image =>
      if truthy title then
        inr (Some {| c_title := title; c_author := author; c_date := date;
                     c_image := image; c_url := articleUrl |})
      else inr None
  end.

(** One turn of [for (const articleUrl of limitedLinks)]; the request has
    no [validateStatus], so every status outside 200..299 is thrown. *)
Definition scrape_article (selectors : Profile) (articleUrl : string)
  : option CappedItem * list LogEntry :=
  match axios_get validateStatus_default (http articleUrl) with
  | inl _ => (None, [LogErrorFetchingArticle articleUrl])
  | inr (_, data) =>
      match extract selectors articleUrl (cheerio_load data) with
      | inl _ => (None, [LogErrorFetchingArticle articleUrl])
      | inr r => (r, [])
      end
  end.

Definition scrape_articles (selectors : Profile) (limitedLinks : list string)
  : list CappedItem * list LogEntry :=
  fold_left
    (fun st articleUrl =>
       let r := scrape_article selectors articleUrl in
       (Base.push (fst st) (fst r), (snd st ++ snd r)%list))
    limitedLinks ([], []).

Definition profileFor : string -> JsValue := profileFor_in websiteSelectors_capped.

(** [Array.from(articleLinks).slice(0, 10)] *)
Definition limit (articleLinks : list string) : list string :=
  firstn 10 articleLinks.

Definition scrape_page (url hostname data : string)
  : CappedReply * list LogEntry :=
  let page := cheerio_load data in
  match profileFor hostname with
  | JsProfile selectors =>
      let links := discover_capped page url (article selectors) in
      let items := scrape_articles selectors (limit (fst links)) in
      (ReplyNews (fst items), (snd links ++ snd items)%list)
  | JsInherited _ | JsUndefined =>
      (ReplyError 500 (exn_message OtherError), [])
  end.

Definition after_fetch (url hostname : string) (r : NetResult)
  : CappedReply * list LogEntry :=
  match axios_get validateStatus r with
  | inl error => (ReplyError 500 (exn_message error), [])
  | inr (status, data) =>
      if (status =? 403)%Z then (ReplyError 403 msg_forbidden, [])
      else if negb (status =? 200)%Z
      then (ReplyError status (msg_failed_status status), [])
      else scrape_page url hostname data
  end.

(** [exports.handler], for a request whose body parsed to [{ url }]. *)
Definition handler (httpMethod url : string) : CappedReply * list LogEntry :=
  if negb (String.eqb httpMethod "POST") then (ReplyError 405 "Method not allowed", [])
  else if negb (truthy url) then (ReplyError 400 msg_url_required, [])
  else
    match URL_hostname url with
    | None => (ReplyError 400 msg_invalid_url, [])
    | Some hostname => after_fetch url hostname (http url)
    end.

End Handler.
End Capped.

(** ** Reading of the specification's classifier, for comparison

    The specification speaks of the path of the address.  [url_path] takes
    what lies between the authority and the first [?] or [#]. *)

Module SpecReading.

Fixpoint drop_through_scheme (s : string) : string :=
  match s with
  | EmptyString => EmptyString
  | String c s' => if startsWith "://" s then substring 3 (String.length s) s
                   else drop_through_scheme s'
  end.

Fixpoint drop_authority (s : string) : string :=
  match s with
  | EmptyString => EmptyString
  | String c s' => if Ascii.eqb c "/" then s else drop_authority s'
  end.

Fixpoint take_path (s : string) : string :=
  match s with
  | EmptyString => EmptyString
  | String c s' =>
      if Ascii.eqb c "?" || Ascii.eqb c "#" then EmptyString
      else String c (take_path s')
  end.

Definition url_path (absoluteUrl : string) : string :=
  take_path (drop_authority (drop_through_scheme absoluteUrl)).

(** The classifier as the specification words it: the path contains one of
    the three markers or a date-shaped run of segments. *)
Definition looksLikeArticle_path (absoluteUrl : string) : bool :=
  looksLikeArticle (url_path absoluteUrl).

(** The image test as the specification words it: all three conditions on
    the absolute address. *)
Definition looksLikeImage_absolute (absoluteUrl : string) : bool :=
  negb (startsWith "data:" absoluteUrl)
  && negb (includes "svg" absoluteUrl)
  && Regex.test re_image_ext absoluteUrl.

End SpecReading.

(** ** Vocabulary of the statements *)

(** [contains needle s]: [needle] occurs somewhere in [s]. *)
Definition contains (needle s : string) : Prop :=
  exists pre post, s = pre ++ needle ++ post.

(** [digits n w]: [w] is made of exactly [n] decimal digits. *)
Definition digits (n : nat) (w : string) : Prop :=
  String.length w = n /\
  forall c, In c (list_ascii_of_string w) -> is_digit c = true.

(** [same_ci w e]: [e] is [w] up to the case of its letters. *)
Definition same_ci (w e : string) : Prop :=
  Forall2 (fun p c => ci p c = true)
          (list_ascii_of_string w) (list_ascii_of_string e).

Definition image_extensions : list string := ["jpg"; "jpeg"; "png"; "gif"; "webp"].

(** Nothing, or a query string: [?] and characters up to the end, none of
    them a line terminator. *)
Definition query_or_nothing (q : string) : Prop :=
  q = "" \/
  exists r, q = "?" ++ r
    /\ forall c, In c (list_ascii_of_string r) -> is_line_terminator c = false.

Definition ends_in_image_extension (u : string) : Prop :=
  exists pre w e q,
    u = pre ++ "." ++ e ++ q
    /\ In w image_extensions /\ same_ci w e /\ query_or_nothing q.

(** What one turn of the article loop adds to [newsItems]. *)
Definition pushed {A : Type} (r : option A) : list A :=
  match r with
  | Some item => [item]
  | None => []
  end.

(** The message sent for an upstream status other than 200 and 403: from
    the status test when axios accepted the response, from the outer
    [catch] when it threw it. *)
Definition upstream_message (status : Z) : string :=
  if validateStatus status then msg_failed_status status
  else msg_server_responded status.

(** ** A small world to run the handlers in

    One instance of the libraries, enough to evaluate the handlers on a few
    pages.  Its URL functions cover addresses of the form
    [scheme://host/path] with a web scheme and references that are either
    rooted ([/x]) or plain file names relative to the directory of the
    base; the reference [//], which names no host, is refused. *)

Module Sample.

Definition el (t : string) : Element := mkElement t [] [].
Definition anchor (href : string) : Element := mkElement "" [("href", href)] [].
Definition img (src : string) : Element := mkElement "" [("src", src)] [].

(** The text after [scheme://] when the address has a web scheme. *)
Definition after_scheme (url : string) : option string :=
  if startsWith "https://" url then Some (substring 8 (String.length url) url)
  else if startsWith "http://" url then Some (substring 7 (String.length url) url)
  else None.

Definition hostname_of (url : string) : option string :=
  match after_scheme url with
  | Some rest => Some (split_first "/" rest)
  | None => None
  end.

(** [scheme://host] *)
Definition origin_of (url : string) : option string :=
  match after_scheme url, hostname_of url with
  | Some rest, Some host =>
      Some (substring 0 (String.length url - String.length rest) url ++ host)
  | _, _ => None
  end.

(** The address up to and including its last [/]. *)
Fixpoint directory_of (url : string) : string :=
  match url with
  | EmptyString => EmptyString
  | String c rest =>
      if includes "/" rest then String c (directory_of rest)
      else if Ascii.eqb c "/" then "/" else EmptyString
  end.

Definition resolve (href base : string) : option string :=
  match origin_of base with
  | Some origin =>
      if String.eqb href "//" then None   (* no host: the constructor throws *)
      else if startsWith "/" href then Some (origin ++ href)
      else Some (directory_of base ++ href)
  | None => None
  end.

Definition list_url : string := "https://site.com/".
Definition good_url : string := "https://site.com/news/123".
Definition bad_url : string := "https://site.com/news/gone".
Definition late_url : string := "https://site.com/news/456".
Definition other_url : string := "https://other.com/news/1".

(** A list page without any article container, whose anchors point to
    four articles, one of them on another site, and to one other page. *)
Definition list_page : Document :=
  document_of
    [ ("a", [ anchor "/news/123"; anchor "/about"; anchor "/news/gone";
              anchor "/news/456"; anchor other_url ]) ].

Definition article_page (headline : string) : Document :=
  document_of [ ("h1", [ el headline ]); ("h1, h2, h3, h4, h5, h6", [ el headline ]) ].

(** A page where two selectors of each kind match. *)
Definition doc_ab : Document :=
  document_of
    [ (".a", [ el " Alpha " ]); (".b", [ el "Beta" ]);
      (".x", [ img "https://site.com/x.jpg" ]);
      (".y", [ img "https://site.com/y.png?w=200" ]) ].

(** An article whose featured image has a source that cannot be resolved. *)
Definition broken_image_page : Document :=
  document_of
    [ ("h1", [ el "Third" ]); ("img.featured-image", [ img "//" ]) ].

Definition broken_url : string := "https://site.com/news/789".

Definition pages : list (string * Document) :=
  [ ("<list>", list_page);
    ("<third>", broken_image_page);
    ("<first>", article_page "First");
    ("<second>", article_page "Second");
    ("<elsewhere>", article_page "Elsewhere");
    ("<ab>", doc_ab) ].

Definition exchanges : list (string * NetResult) :=
  [ (list_url, HttpResponse 200 "<list>");
    (good_url, HttpResponse 200 "<first>");
    (bad_url, HttpResponse 404 "");
    (late_url, HttpResponse 200 "<second>");
    (broken_url, HttpResponse 200 "<third>");
    (other_url, HttpResponse 200 "<elsewhere>");
    ("https://blocked.example/", HttpResponse 403 "");
    ("https://missing.example/", HttpResponse 404 "");
    ("https://empty.example/", HttpResponse 200 "");
    ("https://constructor/", HttpResponse 200 "<list>") ].

#[export] Instance world : Platform := {
  cheerio_load := fun data =>
    match assoc data pages with Some d => d | None => document_of [] end;
  cheerio_remove := fun d _ _ => d;
  URL_hostname := hostname_of;
  URL_href := resolve;
  Date_toISOString := fun s =>
    if String.eqb s "2024-05-01" then Some "2024-05-01T00:00:00.000Z" else None;
  now := fun _ => "2026-01-01T00:00:00.000Z";
  http := fun url =>
    match assoc url exchanges with Some r => r | None => NoResponse end;
  exn_message := fun _ => "error"
}.

End Sample.

(** ** The page that calls the scrape endpoint ([scrapeNews] of [App.tsx]) *)

Module Client.

(** The three pieces of state [scrapeNews] writes. *)
Record State : Type := mkState {
  ui_news : list NewsItem;
  ui_error : string;
  ui_loading : bool
}.

(** What [axios.post] meets: a response with its status and, when the
    response carries one, the body the server gave to [json]; no response;
    or a request that could not be set up (with [error.message]). *)
Inductive PostResult : Type :=
| Delivered (status : Z) (data : option (Reply NewsItem))
| ServerSilent
| PostNotSent (message : string).

(** A reply of the server on its way to the page.  Which statuses travel
    without a body is decided by the HTTP stack, not by the handler:
    [carries_body] stands for that decision. *)
Definition send (carries_body : Z -> bool) (reply : Reply NewsItem) : PostResult :=
  Delivered (reply_status reply)
    (if carries_body (reply_status reply) then Some reply else None).

Definition msg_enter_url : string := "Please enter a website URL".
Definition msg_failed_default : string :=
  "Failed to scrape news. Please try a different URL.".
Definition msg_server_silent : string :=
  "No response from server. Please make sure the server is running.".

(** [scrapeNews]: the state once the function has returned.  The post has
    no [validateStatus]: a response outside 200..299 is thrown with the
    response attached. *)
Definition scrapeNews (url : string) (post : PostResult) (st : State) : State :=
  if negb (truthy url)
  then {| ui_news := ui_news st; ui_error := msg_enter_url; ui_loading := ui_loading st |}
  else
    match post with
    | Delivered status data =>
        if validateStatus_default status then
          match data with
          | Some (ReplyNews (item :: items)) =>
              {| ui_news := item :: items; ui_error := ""; ui_loading := false |}
          | _ =>
              {| ui_news := []; ui_error := msg_no_articles; ui_loading := false |}
          end
        else
          {| ui_news := [];
             ui_error := match data with
                         | Some (ReplyError _ error) => or_else error msg_failed_default
                         | _ => msg_failed_default
                         end;
             ui_loading := false |}
    | ServerSilent =>
        {| ui_news := []; ui_error := msg_server_silent; ui_loading := false |}
    | PostNotSent message =>
        {| ui_news := []; ui_error := "Error: " ++ message; ui_loading := false |}
    end.

End Client.

(** ** More vocabulary *)

(** One or two decimal digits. *)
Definition digits_1_2 (w : string) : Prop := digits 1 w \/ digits 2 w.

Definition is_date_separator (w : string) : Prop := w = "-" \/ w = "/".

(** The two numeric shapes the date pattern looks for: year first or
    year last. *)
Definition date_shaped (m : string) : Prop :=
  exists a sep1 b sep2 c,
    m = a ++ sep1 ++ b ++ sep2 ++ c
    /\ is_date_separator sep1 /\ is_date_separator sep2
    /\ ((digits 4 a /\ digits_1_2 b /\ digits_1_2 c)
        \/ (digits_1_2 a /\ digits_1_2 b /\ digits 4 c)).

(** An anchor the link discovery can look at: below a container of one of
    the selectors, or anywhere on the page. *)
Definition anchor_of (page : Document) (articleSelectors : list string)
  (link : Element) : Prop :=
  (exists s element, In s articleSelectors /\ In element (select page s)
                     /\ In link (find_a element))
  \/ In link (select page "a").

Definition is_some {A : Type} (o : option A) : bool :=
  match o with Some _ => true | None => false end.

(** Whether [axios.get] throws on what the network did. *)
Definition rejected (validate : Z -> bool) (r : NetResult) : bool :=
  match axios_get validate r with
  | inl _ => true
  | inr _ => false
  end.

(** ** A second small world: article pages with more on them *)

Module Desk.

(** The first title selector selects an element without text. *)
Definition blank_first : Document :=
  document_of
    [ (".a", [ Sample.el "  " ]); (".b", [ Sample.el "Beta" ]);
      ("h1, h2, h3, h4, h5, h6", [ Sample.el "Beta" ]) ].

(** A page whose content container holds an advertisement image, and the
    same page once the unwanted descendants are removed. *)
Definition with_container : Document :=
  document_of
    [ ("h1", [ Sample.el "Headline" ]);
      ("article .content", [ Sample.el " Ad Body text " ]);
      ("img", [ Sample.img "https://site.com/ad.jpg";
                Sample.img "https://site.com/photo.jpg" ]) ].

Definition stripped : Document :=
  document_of
    [ ("h1", [ Sample.el "Headline" ]);
      ("article .content", [ Sample.el " Body text " ]);
      ("img", [ Sample.img "https://site.com/photo.jpg" ]) ].

Definition pages : list (string * Document) :=
  [ ("<container>", with_container);
    ("<blank first>", blank_first); ("<list>", Sample.list_page);
    ("<first>", Sample.article_page "First") ].

(** An article answered with status 201. *)
Definition accepted_url : string := "https://site.com/news/accepted".

Definition exchanges : list (string * NetResult) :=
  [ (accepted_url, HttpResponse 201 "<first>");
    ("https://relay.example/", HttpResponse 204 "");
    ("https://unchanged.example/", HttpResponse 304 "");
    ("https://blocked.example/", HttpResponse 403 "");
    (Sample.list_url, HttpResponse 200 "<list>");
    (Sample.good_url, HttpResponse 200 "<first>") ].

#[export] Instance world : Platform := {
  cheerio_load := fun data =>
    match assoc data pages with Some d => d | None => document_of [] end;
  cheerio_remove := fun d sel _ =>
    if String.eqb sel "article .content" then stripped else d;
  URL_hostname := Sample.hostname_of;
  URL_href := Sample.resolve;
  Date_toISOString := fun s =>
    if String.eqb s "2024-05-01" then Some "2024-05-01T00:00:00.000Z" else None;
  now := fun _ => "2026-01-01T00:00:00.000Z";
  http := fun url =>
    match assoc url exchanges with Some r => r | None => NoResponse end;
  exn_message := fun _ => "error"
}.

End Desk.

(** * Properties *)

(** ** The model at work on the sample pages *)

Example trim_both_ends : trim (String "009" "  a b  ") = "a b".
Proof. reflexivity. Qed.

Example date_text_first_alternative :
  Regex.exec re_date_text "on 2024-05-011" = Some "2024-05-01".
Proof. reflexivity. Qed.

Example date_text_second_alternative :
  Regex.exec re_date_text "Posted 5/1/2024 at noon" = Some "5/1/2024".
Proof. reflexivity. Qed.

Example formatDate_embedded :
  formatDate (P := Sample.world) "Published 2024-05-01 by staff"
  = "2024-05-01T00:00:00.000Z".
Proof. reflexivity. Qed.

Example formatDate_unparseable :
  formatDate (P := Sample.world) "yesterday" = "".
Proof. reflexivity. Qed.

Example srcset_first_url :
  first_srcset_url
    (mkElement "" [("data-srcset", " /a.jpg 1x, /b.jpg 2x")] []) = Some "/a.jpg".
Proof. reflexivity. Qed.

Example status_in_message :
  msg_failed_status 404 = "Failed to fetch the website. Status code: 404".
Proof. reflexivity. Qed.

Example base_handler_on_sample :
  Base.handler (P := Sample.world) Sample.list_url
  = (ReplyNews
       [ mkNewsItem "First" "Unknown" "2026-01-01T00:00:00.000Z" "site.com"
           Sample.good_url None;
         mkNewsItem "Second" "Unknown" "2026-01-01T00:00:00.000Z" "site.com"
           Sample.late_url None;
         mkNewsItem "Elsewhere" "Unknown" "2026-01-01T00:00:00.000Z" "site.com"
           Sample.other_url None ],
     [LogGeneralApproach]).
Proof. reflexivity. Qed.

(** ** Strings *)

Section StringFacts.

Lemma append_nil_r (s : string) : s ++ "" = s.
Proof. induction s; simpl; congruence. Qed.

Lemma append_assoc (a b c : string) : (a ++ b) ++ c = a ++ b ++ c.
Proof. induction a; simpl; congruence. Qed.

Lemma startsWith_iff (p s : string) :
  startsWith p s = true <-> exists post, s = p ++ post.
Proof.
  revert s; induction p as [|a p IH]; intros s; simpl.
  - split; [eauto | reflexivity].
  - destruct s as [|b s]; simpl.
    + split; [discriminate | intros [post H]; discriminate].
    + rewrite andb_true_iff, Ascii.eqb_eq, IH. split.
      * intros [-> [post ->]]. eauto.
      * intros [post H]. injection H as -> ->. eauto.
Qed.

Lemma includes_iff (needle s : string) :
  includes needle s = true <-> contains needle s.
Proof.
  unfold contains. induction s as [|c s IH].
  - simpl. rewrite orb_false_r, startsWith_iff. split.
    + intros [post H]. exists "", post. exact H.
    + intros [pre [post H]]. destruct pre; simpl in H.
      * eauto.
      * discriminate.
  - cbn [includes]. rewrite orb_true_iff, startsWith_iff, IH. split.
    + intros [[post H] | [pre [post H]]].
      * exists "", post. exact H.
      * exists (String c pre), post. simpl. congruence.
    + intros [pre [post H]]. destruct pre as [|c' pre]; simpl in H.
      * left. eauto.
      * right. injection H as _ H. eauto.
Qed.

Lemma includes_false_iff (needle s : string) :
  includes needle s = false <-> ~ contains needle s.
Proof.
  rewrite <- includes_iff. destruct (includes needle s); split; congruence.
Qed.

Lemma contains_weaken (a b s : string) : contains (a ++ b) s -> contains a s.
Proof.
  intros [pre [post H]]. exists pre, (b ++ post).
  rewrite H, append_assoc. reflexivity.
Qed.

Lemma truthy_iff (s : string) : truthy s = true <-> s <> "".
Proof. destruct s; simpl; split; congruence. Qed.

Lemma truthy_false_iff (s : string) : truthy s = false <-> s = "".
Proof. destruct s; simpl; split; congruence. Qed.

End StringFacts.

(** Brings both sides of an equation between concatenations to the
    right-nested form. *)
Ltac normalize_append :=
  repeat (rewrite ?append_assoc, ?append_nil_r; simpl).

(** ** The matcher accepts what the pattern denotes *)

Section RegexFacts.

Lemma star_k_iff (p : ascii -> bool) (s : string) (k : string -> option string) :
  star_k p s k <> None <->
  exists s1 s2, s = s1 ++ s2
    /\ (forall c, In c (list_ascii_of_string s1) -> p c = true)
    /\ k s2 <> None.
Proof.
  induction s as [|c s IH]; simpl.
  - split.
    + intros H. exists "", "". simpl. intuition.
    + intros [s1 [s2 [H [_ K]]]]. destruct s1; simpl in H; [|discriminate].
      subst s2. exact K.
  - destruct (p c) eqn:Hp.
    + destruct (star_k p s k) eqn:Hs.
      * split; [intros _ | discriminate].
        destruct IH as [IH _].
        destruct IH as [s1 [s2 [-> [Hall K]]]]; [discriminate|].
        exists (String c s1), s2. simpl. split; [reflexivity|]. split; [|exact K].
        intros c' [<- | Hin]; auto.
      * split.
        -- intros K. exists "", (String c s). simpl. intuition.
        -- intros [s1 [s2 [H [Hall K]]]]. destruct s1 as [|c1 s1]; simpl in H.
           ++ subst s2. exact K.
           ++ injection H as <- ->. exfalso.
              assert (N : @None string <> None).
              { apply IH. exists s1, s2. split; [reflexivity|]. split; [|exact K].
                intros c' Hin. apply Hall. simpl. auto. }
              congruence.
    + split.
      * intros K. exists "", (String c s). simpl. intuition.
      * intros [s1 [s2 [H [Hall K]]]]. destruct s1 as [|c1 s1]; simpl in H.
        -- subst s2. exact K.
        -- injection H as <- ->. specialize (Hall c (or_introl eq_refl)). congruence.
Qed.

Lemma rmatch_iff (r : regex) :
  forall (s : string) (k : string -> option string),
    rmatch r s k <> None <->
    exists s1 s2, s = s1 ++ s2 /\ den r s1 s2 /\ k s2 <> None.
Proof.
  induction r as [|p|r1 IH1 r2 IH2|r1 IH1 r2 IH2|r1 IH1|p|]; intros s k; simpl.
  - split.
    + intros K. exists "", s. simpl. auto.
    + intros [s1 [s2 [-> [-> K]]]]. exact K.
  - destruct s as [|c s].
    + split; [congruence|]. intros [s1 [s2 [H [[c [-> _]] _]]]]. discriminate.
    + destruct (p c) eqn:Hp.
      * split.
        -- intros K. exists (String c ""), s. simpl. eauto.
        -- intros [s1 [s2 [H [[c' [-> _]] K]]]]. simpl in H. injection H as _ ->. exact K.
      * split; [congruence|].
        intros [s1 [s2 [H [[c' [-> Hc]] K]]]]. simpl in H. injection H as -> _. congruence.
  - rewrite IH1. split.
    + intros [a [rest [-> [D1 K]]]]. apply IH2 in K.
      destruct K as [b [s2 [-> [D2 K]]]].
      exists (a ++ b), s2. rewrite append_assoc. split; [reflexivity|].
      split; [|exact K]. exists a, b. auto.
    + intros [s1 [s2 [-> [[a [b [-> [D1 D2]]]] K]]]].
      exists a, (b ++ s2). rewrite append_assoc. split; [reflexivity|].
      split; [exact D1|]. apply IH2. exists b, s2. auto.
  - destruct (rmatch r1 s k) eqn:H1.
    + split; [intros _|congruence].
      assert (N : rmatch r1 s k <> None) by congruence.
      apply IH1 in N. destruct N as [s1 [s2 [E [D K]]]]. exists s1, s2. auto.
    + rewrite IH2. split.
      * intros [s1 [s2 [E [D K]]]]. exists s1, s2. auto.
      * intros [s1 [s2 [E [[D|D] K]]]].
        -- exfalso. assert (N : rmatch r1 s k <> None) by (apply IH1; eauto).
           congruence.
        -- eauto.
  - destruct (rmatch r1 s k) eqn:H1.
    + split; [intros _|congruence].
      assert (N : rmatch r1 s k <> None) by congruence.
      apply IH1 in N. destruct N as [s1 [s2 [E [D K]]]]. exists s1, s2. auto.
    + split.
      * intros K. exists "", s. simpl. auto.
      * intros [s1 [s2 [E [[->|D] K]]]].
        -- simpl in E. subst s2. exact K.
        -- exfalso. assert (N : rmatch r1 s k <> None) by (apply IH1; eauto).
           congruence.
  - apply star_k_iff.
  - destruct s as [|c s].
    + split.
      * intros K. exists "", "". simpl. auto.
      * intros [s1 [s2 [_ [[-> ->] K]]]]. exact K.
    + split; [congruence|]. intros [s1 [s2 [E [[-> ->] _]]]]. discriminate.
Qed.

Lemma exec_iff (r : regex) (s : string) :
  exec r s <> None <->
  exists pre s1 s2, s = pre ++ s1 ++ s2 /\ den r s1 s2.
Proof.
  induction s as [|c s IH].
  - simpl. destruct (rmatch r "" Some) eqn:H.
    + split; [intros _|congruence].
      assert (N : rmatch r "" Some <> None) by congruence.
      apply rmatch_iff in N. destruct N as [s1 [s2 [E [D _]]]].
      exists "", s1, s2. auto.
    + split; [congruence|]. intros [pre [s1 [s2 [E D]]]].
      destruct pre; simpl in E; [|discriminate].
      exfalso. assert (N : rmatch r "" Some <> None).
      { apply rmatch_iff. exists s1, s2. repeat split; auto. congruence. }
      congruence.
  - cbn [exec]. destruct (rmatch r (String c s) Some) eqn:H.
    + split; [intros _|congruence].
      assert (N : rmatch r (String c s) Some <> None) by congruence.
      apply rmatch_iff in N. destruct N as [s1 [s2 [E [D _]]]].
      exists "", s1, s2. auto.
    + rewrite IH. split.
      * intros [pre [s1 [s2 [-> D]]]]. exists (String c pre), s1, s2. auto.
      * intros [pre [s1 [s2 [E D]]]]. destruct pre as [|c' pre]; simpl in E.
        -- exfalso. assert (N : rmatch r (String c s) Some <> None).
           { apply rmatch_iff. exists s1, s2. repeat split; auto. congruence. }
           congruence.
        -- injection E as _ ->. eauto.
Qed.

Lemma test_iff (r : regex) (s : string) :
  Regex.test r s = true <->
  exists pre s1 s2, s = pre ++ s1 ++ s2 /\ den r s1 s2.
Proof.
  rewrite <- exec_iff. unfold Regex.test.
  destruct (exec r s); split; congruence.
Qed.

End RegexFacts.

(** ** The date-shaped run of the link classifier *)

Section DatePath.

Lemma digits_0 (w : string) : digits 0 w <-> w = "".
Proof.
  unfold digits. split.
  - intros [H _]. destruct w; [reflexivity | discriminate].
  - intros ->. simpl. split; [reflexivity | intros c []].
Qed.

Lemma digits_S (n : nat) (w : string) :
  digits (S n) w <->
  exists c w', w = String c w' /\ is_digit c = true /\ digits n w'.
Proof.
  unfold digits. split.
  - intros [L A]. destruct w as [|c w]; [discriminate|].
    exists c, w. simpl in *. repeat split; auto.
  - intros [c [w' [-> [D [L A]]]]]. simpl. split; [congruence|].
    intros c' [<- | Hin]; auto.
Qed.

Lemma digits_app (n m : nat) (w : string) :
  digits (n + m) w <-> exists a b, w = a ++ b /\ digits n a /\ digits m b.
Proof.
  revert w; induction n as [|n IH]; intros w; simpl.
  - split.
    + intros H. exists "", w. rewrite digits_0. auto.
    + intros [a [b [-> [Ha Hb]]]]. apply digits_0 in Ha. subst a. exact Hb.
  - rewrite digits_S. split.
    + intros [c [w' [-> [D H]]]]. apply IH in H. destruct H as [a [b [-> [Ha Hb]]]].
      exists (String c a), b. split; [reflexivity|]. split; [|exact Hb].
      apply digits_S. eauto.
    + intros [a [b [-> [Ha Hb]]]]. apply digits_S in Ha.
      destruct Ha as [c [a' [-> [D Ha']]]]. exists c, (a' ++ b).
      split; [reflexivity|]. split; [exact D|]. apply IH. eauto.
Qed.

Lemma den_digit (w rest : string) : den digit w rest <-> digits 1 w.
Proof.
  simpl. rewrite digits_S. split.
  - intros [c [-> D]]. exists c, "". rewrite digits_0. auto.
  - intros [c [w' [-> [D H]]]]. apply digits_0 in H. subst w'. eauto.
Qed.

Lemma den_seq_digits (n m : nat) (r1 r2 : regex) :
  (forall w rest, den r1 w rest <-> digits n w) ->
  (forall w rest, den r2 w rest <-> digits m w) ->
  forall w rest, den (Seq r1 r2) w rest <-> digits (n + m) w.
Proof.
  intros H1 H2 w rest. rewrite digits_app. simpl. split.
  - intros [a [b [-> [Da Db]]]]. exists a, b. rewrite <- (H1 a (b ++ rest)), <- (H2 b rest). auto.
  - intros [a [b [-> [Da Db]]]]. exists a, b. rewrite (H1 a (b ++ rest)), (H2 b rest). auto.
Qed.

Lemma den_digits2 (w rest : string) : den digits2 w rest <-> digits 2 w.
Proof. exact (den_seq_digits 1 1 digit digit den_digit den_digit w rest). Qed.

Lemma den_digits4 (w rest : string) : den digits4 w rest <-> digits 4 w.
Proof. exact (den_seq_digits 2 2 digits2 digits2 den_digits2 den_digits2 w rest). Qed.

Lemma den_lit (w s rest : string) : den (lit w) s rest <-> s = w.
Proof.
  revert s rest; induction w as [|c w IH]; intros s rest; simpl.
  - reflexivity.
  - split.
    + intros [a [b [-> [[c' [-> E]] D]]]]. apply IH in D. subst b.
      apply Ascii.eqb_eq in E. subst c'. reflexivity.
    + intros ->. exists (String c ""), w. split; [reflexivity|]. split.
      * exists c. split; [reflexivity | apply Ascii.eqb_refl].
      * apply IH. reflexivity.
Qed.

Lemma den_date_path (s1 s2 : string) :
  den re_date_path s1 s2 <->
  exists y m d, s1 = y ++ "/" ++ m ++ "/" ++ d
    /\ digits 4 y /\ digits 2 m /\ digits 2 d.
Proof.
  unfold re_date_path. split.
  - intros [y [b1 [-> [Dy [sl1 [b2 [-> [L1 [m [b3 [-> [Dm [sl2 [d [-> [L2 Dd]]]]]]]]]]]]]]]].
    apply den_lit in L1, L2. subst sl1 sl2.
    apply den_digits4 in Dy. apply den_digits2 in Dm, Dd.
    exists y, m, d. auto.
  - intros [y [m [d [-> [Dy [Dm Dd]]]]]].
    exists y, ("/" ++ m ++ "/" ++ d). split; [reflexivity|].
    split; [apply den_digits4; exact Dy|].
    exists "/", (m ++ "/" ++ d). split; [reflexivity|].
    split; [apply den_lit; reflexivity|].
    exists m, ("/" ++ d). split; [reflexivity|].
    split; [apply den_digits2; exact Dm|].
    exists "/", d. split; [reflexivity|].
    split; [apply den_lit; reflexivity|].
    apply den_digits2; exact Dd.
Qed.

Lemma test_date_path_iff (u : string) :
  Regex.test re_date_path u = true <->
  exists pre y m d post, u = pre ++ y ++ "/" ++ m ++ "/" ++ d ++ post
    /\ digits 4 y /\ digits 2 m /\ digits 2 d.
Proof.
  rewrite test_iff. split.
  - intros [pre [s1 [s2 [-> D]]]]. apply den_date_path in D.
    destruct D as [y [m [d [-> H]]]]. exists pre, y, m, d, s2.
    split; [|exact H]. f_equal.
    normalize_append. reflexivity.
  - intros [pre [y [m [d [post [-> H]]]]]].
    exists pre, (y ++ "/" ++ m ++ "/" ++ d), post. split.
    + f_equal. normalize_append. reflexivity.
    + apply den_date_path. exists y, m, d. auto.
Qed.

End DatePath.

(** ** C7: which links count as articles *)

(** C7, as the specification words it, fails: the handler tests the whole
    address, so a marker in the query string is enough, while the path of
    this address is [/about]. *)
Lemma looksLikeArticle_whole_address_counterexample :
  looksLikeArticle "https://site.com/about?ref=/news/x" = true
  /\ SpecReading.url_path "https://site.com/about?ref=/news/x" = "/about"
  /\ SpecReading.looksLikeArticle_path "https://site.com/about?ref=/news/x" = false.
Proof. repeat split; reflexivity. Qed.

(** C7, amended: a link is kept exactly when the address as a whole
    (scheme, host, path, query and fragment alike) contains [/news/],
    [/article/] or [/story/], or contains four digits, a slash, two digits,
    a slash and two digits in a row; the four addresses of the
    specification are classified as it says. *)
Theorem looksLikeArticle_whole_address :
  (forall u : string,
     looksLikeArticle u = true <->
     contains "/news/" u \/ contains "/article/" u \/ contains "/story/" u
     \/ exists pre y m d post,
          u = pre ++ y ++ "/" ++ m ++ "/" ++ d ++ post
          /\ digits 4 y /\ digits 2 m /\ digits 2 d)
  /\ looksLikeArticle "https://site.com/news/x" = true
  /\ looksLikeArticle "https://site.com/article/y" = true
  /\ looksLikeArticle "https://site.com/2024/05/01/story" = true
  /\ looksLikeArticle "https://site.com/about" = false.
Proof.
  split; [|repeat split; reflexivity].
  intros u. unfold looksLikeArticle.
  rewrite !orb_true_iff, !includes_iff, test_date_path_iff. tauto.
Qed.

(** ** C8: which image sources are accepted *)

Section ImageTest.

Lemma den_lit_ci (w s rest : string) : den (lit_ci w) s rest <-> same_ci w s.
Proof.
  unfold same_ci. revert s rest; induction w as [|c w IH]; intros s rest; simpl.
  - split.
    + intros ->. constructor.
    + intros H. inversion H as [E|]. destruct s; [reflexivity | discriminate].
  - split.
    + intros [a [b [-> [[c' [-> E]] D]]]]. apply IH in D. simpl.
      constructor; assumption.
    + intros H. destruct s as [|c' s]; simpl in H; inversion H; subst.
      exists (String c' ""), s. split; [reflexivity|]. split.
      * exists c'. auto.
      * apply IH. assumption.
Qed.

Lemma den_image_alternatives (e rest : string) :
  den (Alt (lit_ci "jpg") (Alt (lit_ci "jpeg") (Alt (lit_ci "png")
         (Alt (lit_ci "gif") (lit_ci "webp"))))) e rest <->
  exists w, In w image_extensions /\ same_ci w e.
Proof.
  cbn [den]. rewrite !den_lit_ci. unfold image_extensions. split.
  - intros [H|[H|[H|[H|H]]]]; eexists; (split; [|exact H]); simpl; auto 6.
  - intros [w [Hw H]]. simpl in Hw.
    destruct Hw as [<- | [<- | [<- | [<- | [<- | Hw]]]]]; [auto 6 ..| contradiction].
Qed.

Lemma den_query (q rest : string) :
  den (Opt (Seq (lit "?") (StarC (fun c => negb (is_line_terminator c))))) q rest <->
  query_or_nothing q.
Proof.
  unfold query_or_nothing. cbn [den]. split.
  - intros [-> | [a [r [-> [L A]]]]]; [left; reflexivity|].
    apply den_lit in L. subst a. right. exists r. split; [reflexivity|].
    intros c Hin. apply A in Hin. apply negb_true_iff in Hin. exact Hin.
  - intros [-> | [r [-> A]]]; [left; reflexivity|].
    right. exists "?", r. split; [reflexivity|]. split; [apply den_lit; reflexivity|].
    intros c Hin. apply negb_true_iff. auto.
Qed.

Lemma test_image_ext_iff (u : string) :
  Regex.test re_image_ext u = true <-> ends_in_image_extension u.
Proof.
  rewrite test_iff. unfold ends_in_image_extension, re_image_ext. split.
  - intros [pre [s1 [s2 [-> D]]]].
    destruct D as [dot [b1 [-> [L [e [b2 [-> [A [q [z [-> [Q [-> ->]]]]]]]]]]]]].
    apply den_lit in L. subst dot. apply den_image_alternatives in A.
    destruct A as [w [Hw Hci]]. apply den_query in Q.
    exists pre, w, e, q. split; [|auto].
    normalize_append. reflexivity.
  - intros [pre [w [e [q [-> [Hw [Hci Q]]]]]]].
    exists pre, ("." ++ e ++ q), "". split.
    + normalize_append. reflexivity.
    + exists ".", (e ++ q). split; [reflexivity|]. split; [apply den_lit; reflexivity|].
      exists e, q. split; [reflexivity|]. split.
      * apply den_image_alternatives. eauto.
      * exists q, "". rewrite append_nil_r. split; [reflexivity|].
        split; [apply den_query; exact Q | split; reflexivity].
Qed.

Lemma test_image_ext_nonempty (u : string) :
  Regex.test re_image_ext u = true -> truthy u = true.
Proof. destruct u; [discriminate | reflexivity]. Qed.

Context {P : Platform}.

Lemma accept_src_iff (articleUrl src u : string) :
  accept_src articleUrl (Some src) = Some u <->
  src <> "" /\ startsWith "data:" src = false /\ ~ contains "svg" src
  /\ absolute articleUrl src = Some u /\ ends_in_image_extension u.
Proof.
  unfold accept_src, src_guard.
  rewrite <- truthy_iff, <- includes_false_iff, <- test_image_ext_iff.
  destruct (truthy src), (startsWith "data:" src), (includes "svg" src); simpl;
    try (split; [discriminate | intuition congruence]).
  destruct (absolute articleUrl src) as [a|];
    [|split; [discriminate | intuition congruence]].
  destruct (Regex.test re_image_ext a) eqn:T.
  - split.
    + intros H. injection H as <-. auto.
    + intros [_ [_ [_ [H _]]]]. exact H.
  - split; [discriminate|]. intros [_ [_ [_ [H T']]]]. injection H as <-. congruence.
Qed.

Lemma accept_src_absolute (articleUrl u : string) :
  startsWith "http" u = true ->
  (accept_src articleUrl (Some u) = Some u <->
   SpecReading.looksLikeImage_absolute u = true).
Proof.
  intros H. unfold accept_src, src_guard, absolute, SpecReading.looksLikeImage_absolute.
  rewrite H. assert (T : truthy u = true) by (destruct u; [discriminate | reflexivity]).
  rewrite T.
  destruct (startsWith "data:" u), (includes "svg" u); cbn [andb negb];
    try (split; discriminate).
  destruct (Regex.test re_image_ext u); split; intros E; try reflexivity; discriminate E.
Qed.

End ImageTest.

(** C8, as the specification words it, fails: the [data:] and [svg] tests
    bear on the attribute value as written, not on the address it resolves
    to.  An image named [pic.jpg] on a site whose host contains [svg] is
    accepted, although the absolute address contains [svg]. *)
Lemma image_guard_before_resolution_counterexample :
  accept_src (P := Sample.world) "https://svgnews.com/news/1" (Some "pic.jpg")
    = Some "https://svgnews.com/news/pic.jpg"
  /\ includes "svg" "https://svgnews.com/news/pic.jpg" = true
  /\ SpecReading.looksLikeImage_absolute "https://svgnews.com/news/pic.jpg" = false.
Proof. repeat split; reflexivity. Qed.

(** C8, amended: a candidate is accepted exactly when the attribute value
    as written is non-empty, does not start with [data:] and does not
    contain [svg], and the address it resolves to ends, optionally followed
    by a query string, in one of the five extensions in any letter case.
    For a value that already starts with [http] the address is the value
    itself and the three conditions all bear on it.  The three sources of
    the specification are classified as it says. *)
Theorem image_source_accepted (P : Platform) :
  (forall articleUrl src u : string,
     accept_src articleUrl (Some src) = Some u <->
     src <> "" /\ startsWith "data:" src = false /\ ~ contains "svg" src
     /\ absolute articleUrl src = Some u /\ ends_in_image_extension u)
  /\ (forall articleUrl u : string,
        startsWith "http" u = true ->
        (accept_src articleUrl (Some u) = Some u <->
         SpecReading.looksLikeImage_absolute u = true))
  /\ (forall articleUrl : string,
        accept_src articleUrl (Some "https://site.com/a.jpg?w=200")
          = Some "https://site.com/a.jpg?w=200"
        /\ accept_src articleUrl (Some "data:image/png;base64,AAAA") = None
        /\ accept_src articleUrl (Some "https://site.com/icon.svg") = None).
Proof.
  split; [exact accept_src_iff|]. split; [exact accept_src_absolute|].
  intros articleUrl. repeat split; reflexivity.
Qed.

Lemma image_source_accepted_witness :
  startsWith "http" "https://site.com/a.JPG" = true
  /\ (accept_src (P := Sample.world) "https://site.com/news/1"
        (Some "https://site.com/a.JPG") = Some "https://site.com/a.JPG" <->
      SpecReading.looksLikeImage_absolute "https://site.com/a.JPG" = true).
Proof.
  split; [reflexivity|].
  apply (proj1 (proj2 (image_source_accepted Sample.world))). reflexivity.
Defined.

(** ** Loops over selector lists *)

Section Loops.

Context {A : Type}.

(** A loop that overwrites: the last element that sets the value decides,
    whatever came before. *)
Lemma fold_left_last_wins (step : string -> A -> string)
  (pre post : list A) (s : A) (v init : string) :
  (forall acc, step acc s = v) ->
  (forall x, In x post -> forall acc, step acc x = acc) ->
  fold_left step (pre ++ s :: post) init = v.
Proof.
  intros Hs Hpost. rewrite fold_left_app. simpl. rewrite Hs.
  clear Hs. induction post as [|x post IH]; simpl; [reflexivity|].
  rewrite Hpost by (left; reflexivity). apply IH.
  intros y Hy. apply Hpost. right. exact Hy.
Qed.

Lemma fold_left_unchanged (step : string -> A -> string)
  (l : list A) (init : string) :
  (forall x, In x l -> forall acc, step acc x = acc) ->
  fold_left step l init = init.
Proof.
  revert init; induction l as [|x l IH]; intros init H; simpl; [reflexivity|].
  rewrite H by (left; reflexivity). apply IH. intros y Hy. apply H. right. exact Hy.
Qed.

(** An invariant of the running value. *)
Lemma fold_left_invariant (step : string -> A -> string) (I : string -> Prop)
  (l : list A) (init : string) :
  I init -> (forall acc x, I acc -> I (step acc x)) -> I (fold_left step l init).
Proof.
  revert init; induction l as [|x l IH]; intros init H0 Hstep; simpl; auto.
Qed.

Context {B : Type}.

(** A loop left at the first success: the elements before it must fail. *)
Lemma first_success_first_wins (f : A -> option B) (pre post : list A) (s : A) (y : B) :
  (forall x, In x pre -> f x = None) -> f s = Some y ->
  first_success f (pre ++ s :: post) = Some y.
Proof.
  intros Hpre Hs. induction pre as [|x pre IH]; simpl.
  - rewrite Hs. reflexivity.
  - rewrite Hpre by (left; reflexivity). apply IH. intros z Hz. apply Hpre. right. exact Hz.
Qed.

Lemma first_success_some (f : A -> option B) (l : list A) (y : B) :
  first_success f l = Some y -> exists x, In x l /\ f x = Some y.
Proof.
  induction l as [|x l IH]; simpl; [discriminate|].
  destruct (f x) eqn:E.
  - intros H. injection H as <-. exists x. auto.
  - intros H. destruct (IH H) as [z [Hz Hf]]. exists z. auto.
Qed.

End Loops.

(** ** C1: precedence among title, author and date selectors *)

Section TextFields.

Variable articleDoc : Document.

Lemma title_of_selectors_last (pre post : list string) (s v : string) :
  trim (first_text articleDoc s) = v -> v <> "" ->
  (forall s', In s' post -> trim (first_text articleDoc s') = "") ->
  title_of_selectors articleDoc (pre ++ s :: post) = v.
Proof.
  intros Hs Hv Hpost. apply fold_left_last_wins.
  - intros acc. unfold title_step. rewrite Hs.
    apply truthy_iff in Hv. rewrite Hv. reflexivity.
  - intros x Hx acc. unfold title_step. rewrite (Hpost x Hx). reflexivity.
Qed.

Lemma base_title_last (pre post : list string) (s v : string) :
  trim (first_text articleDoc s) = v -> v <> "" ->
  (forall s', In s' post -> trim (first_text articleDoc s') = "") ->
  base_title articleDoc (pre ++ s :: post) = v.
Proof.
  intros Hs Hv Hpost. unfold base_title.
  rewrite (title_of_selectors_last pre post s v Hs Hv Hpost).
  apply truthy_iff in Hv. rewrite Hv. reflexivity.
Qed.

Lemma field_of_selectors_last (pre post : list string) (s v : string) :
  meta_or_text articleDoc s = Some v ->
  (forall s', In s' post -> meta_or_text articleDoc s' = None) ->
  field_of_selectors articleDoc (pre ++ s :: post) = v.
Proof.
  intros Hs Hpost. apply fold_left_last_wins.
  - intros acc. unfold field_step. rewrite Hs. reflexivity.
  - intros x Hx acc. unfold field_step. rewrite (Hpost x Hx). reflexivity.
Qed.

Lemma first_match_text_first (pre post : list string) (s : string) (el : Element) :
  (forall s', In s' pre -> first articleDoc s' = None) ->
  first articleDoc s = Some el ->
  Extended.first_match_text articleDoc (pre ++ s :: post) = trim (text el).
Proof.
  intros Hpre Hs. unfold Extended.first_match_text.
  rewrite (first_success_first_wins (first articleDoc) pre post s el Hpre Hs).
  reflexivity.
Qed.

End TextFields.

(** C1, as stated for every variant, fails on the extended server: with
    the selector list [.a], [.b] and both selectors matching an element
    with text, its loops stop at [.a]. *)
Lemma first_match_in_extended_counterexample :
  trim (first_text Sample.doc_ab ".a") = "Alpha"
  /\ trim (first_text Sample.doc_ab ".b") = "Beta"
  /\ Extended.first_match_text Sample.doc_ab [".a"; ".b"] = "Alpha"
  /\ option_map (fun r => item_title (ext_item r))
       (Extended.extract (P := Sample.world) "site.com"
          (mkProfile [] [".a"; ".b"] [".a"; ".b"] [".a"; ".b"] [])
          Sample.good_url Sample.doc_ab) = Some "Alpha".
Proof. repeat split; reflexivity. Qed.

(** C1, amended: in the base server the value of title, author and date
    comes from the last selector of the list that yields a non-empty value
    (trimmed text, or the [content] attribute for a selector starting with
    [meta]).  In the extended server and the capped function the loops stop
    at the first selector that selects any element and take its trimmed
    text, so there the first matching selector decides. *)
Theorem text_field_precedence (articleDoc : Document) :
  (forall (pre post : list string) (s v : string),
     trim (first_text articleDoc s) = v -> v <> "" ->
     (forall s', In s' post -> trim (first_text articleDoc s') = "") ->
     base_title articleDoc (pre ++ s :: post) = v)
  /\ (forall (pre post : list string) (s v : string),
        meta_or_text articleDoc s = Some v ->
        (forall s', In s' post -> meta_or_text articleDoc s' = None) ->
        field_of_selectors articleDoc (pre ++ s :: post) = v)
  /\ (forall (pre post : list string) (s : string) (el : Element),
        (forall s', In s' pre -> first articleDoc s' = None) ->
        first articleDoc s = Some el ->
        Extended.first_match_text articleDoc (pre ++ s :: post) = trim (text el)).
Proof.
  split; [exact (base_title_last articleDoc)|].
  split; [exact (field_of_selectors_last articleDoc)|].
  exact (first_match_text_first articleDoc).
Qed.

Lemma text_field_precedence_witness :
  base_title Sample.doc_ab [".a"; ".b"] = "Beta"
  /\ field_of_selectors Sample.doc_ab [".a"; ".b"] = "Beta"
  /\ Extended.first_match_text Sample.doc_ab [".a"; ".b"] = "Alpha".
Proof.
  destruct (text_field_precedence Sample.doc_ab) as [T [F E]].
  split; [|split].
  - apply (T [".a"] [] ".b" "Beta"); [reflexivity | discriminate | intros s' []].
  - apply (F [".a"] [] ".b" "Beta"); [reflexivity | intros s' []].
  - apply (E [] [".b"] ".a" (Sample.el " Alpha ")); [intros s' [] | reflexivity].
Defined.

(** ** C2: precedence among image selectors *)

Section ImagePrecedence.

Context {P : Platform}.
Variable articleDoc : Document.
Variable articleUrl : string.

Lemma accept_src_truthy (candidate : option string) (u : string) :
  accept_src articleUrl candidate = Some u -> truthy u = true.
Proof.
  unfold accept_src. destruct candidate as [src|]; [|discriminate].
  destruct (src_guard src); [|discriminate].
  destruct (absolute articleUrl src) as [a|]; [|discriminate].
  destruct (Regex.test re_image_ext a) eqn:T; [|discriminate].
  intros H. injection H as <-. apply test_image_ext_nonempty. exact T.
Qed.

Lemma accept_src_image_ext (candidate : option string) (u : string) :
  accept_src articleUrl candidate = Some u -> Regex.test re_image_ext u = true.
Proof.
  unfold accept_src. destruct candidate as [src|]; [|discriminate].
  destruct (src_guard src); [|discriminate].
  destruct (absolute articleUrl src) as [a|]; [|discriminate].
  destruct (Regex.test re_image_ext a) eqn:T; [|discriminate].
  intros H. injection H as <-. exact T.
Qed.

Lemma image_of_element_image_ext (img : Element) (u : string) :
  image_of_element articleUrl img = Some u -> Regex.test re_image_ext u = true.
Proof.
  intros H. apply first_success_some in H. destruct H as [c [_ Hc]].
  apply (accept_src_image_ext c). exact Hc.
Qed.

Lemma image_of_selector_image_ext (selector u : string) :
  image_of_selector articleDoc articleUrl selector = Some u ->
  Regex.test re_image_ext u = true.
Proof.
  unfold image_of_selector. destruct (first articleDoc selector) as [img|]; [|discriminate].
  apply image_of_element_image_ext.
Qed.

Lemma image_of_selectors_last (pre post : list string) (s v : string) :
  image_of_selector articleDoc articleUrl s = Some v ->
  (forall s', In s' post -> image_of_selector articleDoc articleUrl s' = None) ->
  image_of_selectors articleDoc articleUrl (pre ++ s :: post) = v.
Proof.
  intros Hs Hpost. apply fold_left_last_wins.
  - intros acc. unfold image_step. rewrite Hs. reflexivity.
  - intros x Hx acc. unfold image_step. rewrite (Hpost x Hx). reflexivity.
Qed.

Lemma extract_image_last (pre post : list string) (s v : string) :
  image_of_selector articleDoc articleUrl s = Some v ->
  (forall s', In s' post -> image_of_selector articleDoc articleUrl s' = None) ->
  extract_image articleDoc articleUrl (pre ++ s :: post) = v.
Proof.
  intros Hs Hpost. unfold extract_image.
  rewrite (image_of_selectors_last pre post s v Hs Hpost).
  rewrite (test_image_ext_nonempty v (image_of_selector_image_ext s v Hs)).
  reflexivity.
Qed.

Lemma extract_image_fallback (selectors : list string) :
  (forall s, In s selectors -> image_of_selector articleDoc articleUrl s = None) ->
  extract_image articleDoc articleUrl selectors = image_of_any articleDoc articleUrl.
Proof.
  intros H. unfold extract_image, image_of_selectors.
  rewrite fold_left_unchanged; [reflexivity|].
  intros x Hx acc. unfold image_step. rewrite (H x Hx). reflexivity.
Qed.

(** Whatever the search returns is empty or passed the extension test. *)
Lemma extract_image_image_ext (selectors : list string) :
  extract_image articleDoc articleUrl selectors = ""
  \/ Regex.test re_image_ext (extract_image articleDoc articleUrl selectors) = true.
Proof.
  unfold extract_image.
  destruct (truthy (image_of_selectors articleDoc articleUrl selectors)) eqn:T.
  - right. revert T. unfold image_of_selectors.
    apply (fold_left_invariant (image_step articleDoc articleUrl)
             (fun acc => truthy acc = true -> Regex.test re_image_ext acc = true)).
    + discriminate.
    + intros acc x IH. unfold image_step.
      destruct (image_of_selector articleDoc articleUrl x) as [u|] eqn:E; [|exact IH].
      intros _. apply (image_of_selector_image_ext x). exact E.
  - unfold image_of_any.
    destruct (first_success (image_of_element articleUrl) (select articleDoc "img"))
      as [u|] eqn:E; [|left; reflexivity].
    right. apply first_success_some in E. destruct E as [img [_ E]].
    apply (image_of_element_image_ext img). exact E.
Qed.

End ImagePrecedence.

(** C2, as stated, fails: with the selector list [.x], [.y] and a valid
    source under both, the image of [.y] is returned. *)
Lemma image_last_selector_counterexample :
  image_of_selector (P := Sample.world) Sample.doc_ab Sample.good_url ".x"
    = Some "https://site.com/x.jpg"
  /\ image_of_selector (P := Sample.world) Sample.doc_ab Sample.good_url ".y"
    = Some "https://site.com/y.png?w=200"
  /\ extract_image (P := Sample.world) Sample.doc_ab Sample.good_url [".x"; ".y"]
    = "https://site.com/y.png?w=200".
Proof. repeat split; reflexivity. Qed.

(** C2, amended: the image selectors are all visited, and the address
    returned is the one obtained from the last selector of the list whose
    first element yields a valid source, the same precedence as title,
    author and date have in the base server; only among the attributes of
    one element does the first valid candidate win.  When no selector
    yields a source, the result is that of the scan of every [img]. *)
Theorem image_precedence (P : Platform) (articleDoc : Document) (articleUrl : string) :
  (forall (pre post : list string) (s v : string),
     image_of_selector articleDoc articleUrl s = Some v ->
     (forall s', In s' post -> image_of_selector articleDoc articleUrl s' = None) ->
     extract_image articleDoc articleUrl (pre ++ s :: post) = v)
  /\ (forall (img : Element) (before after : list (option string))
             (candidate : option string) (v : string),
        possibleSrcs img = (before ++ candidate :: after)%list ->
        (forall c, In c before -> accept_src articleUrl c = None) ->
        accept_src articleUrl candidate = Some v ->
        image_of_element articleUrl img = Some v)
  /\ (forall selectors : list string,
        (forall s, In s selectors -> image_of_selector articleDoc articleUrl s = None) ->
        extract_image articleDoc articleUrl selectors
          = image_of_any articleDoc articleUrl).
Proof.
  split; [exact (extract_image_last articleDoc articleUrl)|].
  split; [|exact (extract_image_fallback articleDoc articleUrl)].
  intros img before after candidate v E Hb Hc. unfold image_of_element.
  rewrite E. apply first_success_first_wins; assumption.
Qed.

Lemma image_precedence_witness :
  extract_image (P := Sample.world) Sample.doc_ab Sample.good_url [".x"; ".y"]
    = "https://site.com/y.png?w=200"
  /\ image_of_element (P := Sample.world) Sample.good_url
       (Sample.img "https://site.com/x.jpg") = Some "https://site.com/x.jpg"
  /\ extract_image (P := Sample.world) Sample.doc_ab Sample.good_url []
    = image_of_any (P := Sample.world) Sample.doc_ab Sample.good_url.
Proof.
  destruct (image_precedence Sample.world Sample.doc_ab Sample.good_url) as [L [F A]].
  split; [|split].
  - apply (L [".x"] [] ".y"); [reflexivity | intros s' []].
  - apply (F (Sample.img "https://site.com/x.jpg") [] [None; None; None; None; None]
              (Some "https://site.com/x.jpg"));
      [reflexivity | intros c [] | reflexivity].
  - apply A. intros s [].
Defined.

(** ** The article loop and the link scan *)

Section Pipeline.

Lemma fold_push {A B : Type} (f : B -> option A * list LogEntry)
  (l : list B) (acc : list A * list LogEntry) :
  fold_left
    (fun st x => let r := f x in (Base.push (fst st) (fst r), (snd st ++ snd r)%list))
    l acc
  = ((fst acc ++ flat_map (fun x => pushed (fst (f x))) l)%list,
     (snd acc ++ flat_map (fun x => snd (f x)) l)%list).
Proof.
  revert acc; induction l as [|x l IH]; intros [items log]; simpl.
  - rewrite !app_nil_r. reflexivity.
  - rewrite IH. simpl. f_equal.
    + destruct (fst (f x)); simpl; [rewrite <- app_assoc|]; reflexivity.
    + rewrite <- app_assoc. reflexivity.
Qed.

Lemma In_set_add (x y : string) (set : list string) :
  In y (set_add x set) <-> y = x \/ In y set.
Proof.
  unfold set_add. destruct (existsb (String.eqb x) set) eqn:E.
  - split; [auto|]. intros [-> | H]; [|exact H].
    apply existsb_exists in E. destruct E as [z [Hz Ez]].
    apply String.eqb_eq in Ez. subst z. exact Hz.
  - rewrite in_app_iff. simpl. intuition.
Qed.

Context {P : Platform}.

Lemma Base_scrape_articles_eq (hostname : string) (selectors : Profile)
  (links : list string) :
  Base.scrape_articles hostname selectors links
  = (flat_map (fun u => pushed (fst (Base.scrape_article hostname selectors u))) links,
     flat_map (fun u => snd (Base.scrape_article hostname selectors u)) links).
Proof. unfold Base.scrape_articles. rewrite fold_push. reflexivity. Qed.

Lemma Capped_scrape_articles_eq (selectors : Profile) (links : list string) :
  Capped.scrape_articles selectors links
  = (flat_map (fun u => pushed (fst (Capped.scrape_article selectors u))) links,
     flat_map (fun u => snd (Capped.scrape_article selectors u)) links).
Proof. unfold Capped.scrape_articles. rewrite fold_push. reflexivity. Qed.

(** The scan only ever adds links. *)
Lemma consider_link_keeps (url : string) (st : list string * list LogEntry)
  (link : Element) (u : string) :
  In u (fst st) -> In u (fst (consider_link url st link)).
Proof.
  intros H. unfold consider_link.
  destruct (attr "href" link) as [href|]; [|exact H].
  destruct (truthy href); [|exact H].
  destruct (absolute url href) as [a|]; [|exact H].
  destruct (looksLikeArticle a); [|exact H].
  simpl. apply In_set_add. right. exact H.
Qed.

Lemma scan_links_keeps (url : string) (links : list Element)
  (st : list string * list LogEntry) (u : string) :
  In u (fst st) -> In u (fst (scan_links url st links)).
Proof.
  revert st; induction links as [|l links IH]; intros st H; simpl; [exact H|].
  apply IH. apply consider_link_keeps. exact H.
Qed.

(** A link that resolves and looks like an article enters the set. *)
Lemma scan_links_finds (url : string) (links : list Element)
  (st : list string * list LogEntry) (link : Element) (href u : string) :
  In link links -> attr "href" link = Some href -> href <> "" ->
  absolute url href = Some u -> looksLikeArticle u = true ->
  In u (fst (scan_links url st links)).
Proof.
  revert st; induction links as [|l links IH]; intros st Hin Hattr Hne Habs Hlooks;
    simpl in *; [contradiction|].
  destruct Hin as [-> | Hin].
  - apply scan_links_keeps. unfold consider_link.
    rewrite Hattr. apply truthy_iff in Hne. rewrite Hne, Habs, Hlooks. simpl.
    apply In_set_add. left. reflexivity.
  - apply IH; assumption.
Qed.

(** The links found do not depend on what was logged before. *)
Lemma consider_link_fst (url : string) (st st' : list string * list LogEntry)
  (link : Element) :
  fst st = fst st' -> fst (consider_link url st link) = fst (consider_link url st' link).
Proof.
  intros H. unfold consider_link.
  destruct (attr "href" link) as [href|]; [|exact H].
  destruct (truthy href); [|exact H].
  destruct (absolute url href) as [a|]; [|exact H].
  destruct (looksLikeArticle a); [|exact H].
  simpl. rewrite H. reflexivity.
Qed.

Lemma scan_links_fst (url : string) (links : list Element)
  (st st' : list string * list LogEntry) :
  fst st = fst st' -> fst (scan_links url st links) = fst (scan_links url st' links).
Proof.
  revert st st'; induction links as [|l links IH]; intros st st' H; simpl; [exact H|].
  apply IH. apply consider_link_fst. exact H.
Qed.

(** The scan itself never writes the line of the general approach. *)
Lemma consider_link_log (url : string) (st : list string * list LogEntry)
  (link : Element) :
  In LogGeneralApproach (snd (consider_link url st link))
  <-> In LogGeneralApproach (snd st).
Proof.
  unfold consider_link.
  destruct (attr "href" link) as [href|]; [|reflexivity].
  destruct (truthy href); [|reflexivity].
  destruct (absolute url href) as [a|].
  - destruct (looksLikeArticle a); reflexivity.
  - simpl. rewrite in_app_iff. simpl. intuition discriminate.
Qed.

Lemma scan_links_log (url : string) (links : list Element)
  (st : list string * list LogEntry) :
  In LogGeneralApproach (snd (scan_links url st links))
  <-> In LogGeneralApproach (snd st).
Proof.
  revert st; induction links as [|l links IH]; intros st; simpl; [reflexivity|].
  rewrite IH. apply consider_link_log.
Qed.

Lemma selector_pass_log (page : Document) (url : string) (articleSelectors : list string) :
  ~ In LogGeneralApproach (snd (selector_pass page url articleSelectors)).
Proof.
  unfold selector_pass.
  assert (G : forall (sels : list string) st,
             ~ In LogGeneralApproach (snd st) ->
             ~ In LogGeneralApproach
                 (snd (fold_left
                         (fun st0 articleSelector =>
                            fold_left (fun st' element => scan_links url st' (find_a element))
                                      (select page articleSelector) st0)
                         sels st))).
  { induction sels as [|s sels IH]; intros st H; simpl; [exact H|].
    apply IH. clear IH. revert st H.
    induction (select page s) as [|e es IHe]; intros st H; simpl; [exact H|].
    apply IHe. rewrite scan_links_log. exact H. }
  apply G. simpl. auto.
Qed.

(** Without any container, the selector pass finds nothing. *)
Lemma selector_pass_no_container (page : Document) (url : string)
  (articleSelectors : list string) :
  (forall s, In s articleSelectors -> select page s = []) ->
  selector_pass page url articleSelectors = ([], []).
Proof.
  unfold selector_pass. generalize (@nil string, @nil LogEntry).
  induction articleSelectors as [|s sels IH]; intros st H; simpl; [reflexivity|].
  rewrite (H s) by (left; reflexivity). simpl. apply IH.
  intros s' Hs'. apply H. right. exact Hs'.
Qed.

(** The reply of the base server once the list page arrived with status
    200 and the registry gave a profile. *)
Lemma Base_handler_reply (url hostname data : string) (selectors : Profile) :
  truthy url = true -> URL_hostname url = Some hostname ->
  http url = HttpResponse 200 data -> profileFor hostname = JsProfile selectors ->
  fst (Base.handler url)
  = match flat_map (fun u => pushed (fst (Base.scrape_article hostname selectors u)))
            (fst (discover (cheerio_load data) url (article selectors))) with
    | [] => ReplyError 404 msg_no_articles
    | items => ReplyNews items
    end.
Proof.
  intros T H R S. unfold Base.handler. rewrite T, H. cbn [negb].
  unfold Base.after_fetch. rewrite R. cbn [axios_get].
  change (validateStatus 200) with true. cbv iota.
  change (200 =? 403)%Z with false. change (200 =? 200)%Z with true.
  cbn [negb]. cbv iota.
  unfold Base.scrape_page. rewrite S, Base_scrape_articles_eq. cbn [fst snd].
  destruct (flat_map _ _); reflexivity.
Qed.

End Pipeline.

(** ** C6: when every anchor of the page is scanned *)

(** C6: the line announcing the general approach, written in the branch
    that scans every anchor, is on the console exactly when the selector
    pass left the set of links empty; in that case the result is the scan
    of every anchor, otherwise it is the result of the selector pass.  In
    particular, on a page where no container selector selects anything, an
    anchor whose reference contains [/news/123] and resolves to an address
    that still contains it puts that address in the set. *)
Theorem general_approach_iff_no_selector_links (P : Platform)
  (page : Document) (url : string) (articleSelectors : list string) :
  (In LogGeneralApproach (snd (discover page url articleSelectors))
   <-> fst (selector_pass page url articleSelectors) = [])
  /\ (fst (selector_pass page url articleSelectors) = [] ->
      fst (discover page url articleSelectors)
        = fst (scan_links url ([], []) (select page "a")))
  /\ (fst (selector_pass page url articleSelectors) <> [] ->
      discover page url articleSelectors = selector_pass page url articleSelectors)
  /\ (forall (link : Element) (href u : string),
        (forall s, In s articleSelectors -> select page s = []) ->
        In link (select page "a") ->
        attr "href" link = Some href ->
        contains "/news/123" href ->
        absolute url href = Some u ->
        contains "/news/123" u ->
        In u (fst (discover page url articleSelectors))).
Proof.
  assert (E : forall l : list string, (List.length l =? 0)%nat = true <-> l = []).
  { intros [|x l]; simpl; split; congruence. }
  split; [|split; [|split]].
  - unfold discover.
    destruct (List.length (fst (selector_pass page url articleSelectors)) =? 0)%nat eqn:L.
    + rewrite scan_links_log. simpl. rewrite in_app_iff. simpl.
      apply E in L. intuition.
    + split.
      * intros H. exfalso. exact (selector_pass_log page url articleSelectors H).
      * intros H. apply E in H. congruence.
  - intros H. unfold discover. rewrite (proj2 (E _) H).
    apply scan_links_fst. simpl. exact H.
  - intros H. unfold discover.
    destruct (List.length (fst (selector_pass page url articleSelectors)) =? 0)%nat eqn:L;
      [|reflexivity].
    apply E in L. contradiction.
  - intros link href u Hnone Hin Hattr Hhref Habs Hu. unfold discover.
    rewrite (selector_pass_no_container page url articleSelectors Hnone). simpl.
    apply (scan_links_finds url _ _ link href u Hin Hattr); [|exact Habs|].
    + intros ->. destruct Hhref as [pre [post H]]. destruct pre; discriminate.
    + unfold looksLikeArticle.
      assert (N : includes "/news/" u = true).
      { apply includes_iff. apply (contains_weaken "/news/" "123"). exact Hu. }
      rewrite N. reflexivity.
Qed.

Lemma general_approach_iff_no_selector_links_witness :
  fst (selector_pass (P := Sample.world) Sample.list_page Sample.list_url
         (article default_profile)) = []
  /\ fst (discover (P := Sample.world) Sample.list_page Sample.list_url
            (article default_profile))
     = fst (scan_links (P := Sample.world) Sample.list_url ([], [])
              (select Sample.list_page "a"))
  /\ In "https://site.com/news/123"
       (fst (discover (P := Sample.world) Sample.list_page Sample.list_url
               (article default_profile))).
Proof.
  destruct (general_approach_iff_no_selector_links Sample.world Sample.list_page
              Sample.list_url (article default_profile)) as [L [G [_ F]]].
  split; [|split].
  - apply L. vm_compute. auto.
  - apply G. reflexivity.
  - apply (F (Sample.anchor "/news/123") "/news/123").
    + intros s Hs. simpl in Hs.
      repeat (destruct Hs as [<- | Hs]; [reflexivity|]). contradiction.
    + vm_compute. auto.
    + reflexivity.
    + exists "", "". reflexivity.
    + reflexivity.
    + exists "https://site.com", "". reflexivity.
Defined.

(** ** C5: a failing article is skipped *)




(** ** From the reply back to the articles *)

Section Replies.

Context {P : Platform}.

Lemma Base_extract_some (hostname : string) (selectors : Profile)
  (articleUrl : string) (articleDoc : Document) (item : NewsItem) :
  Base.extract hostname selectors articleUrl articleDoc = Some item ->
  truthy (base_title articleDoc (title selectors)) = true
  /\ item =
     {| item_title := base_title articleDoc (title selectors);
        item_author := or_else (field_of_selectors articleDoc (author selectors)) "Unknown";
        item_date := or_else (formatDate (field_of_selectors articleDoc (date selectors)))
                             (now articleUrl);
        item_source := hostname;
        item_url := articleUrl;
        item_imageUrl := or_null (extract_image articleDoc articleUrl (image selectors)) |}.
Proof.
  unfold Base.extract.
  destruct (truthy (base_title articleDoc (title selectors))); [|discriminate].
  intros H. injection H as <-. auto.
Qed.

Lemma Base_scrape_article_some (hostname : string) (selectors : Profile)
  (articleUrl : string) (item : NewsItem) :
  fst (Base.scrape_article hostname selectors articleUrl) = Some item ->
  exists data, http articleUrl = HttpResponse 200 data
    /\ Base.extract hostname selectors articleUrl (cheerio_load data) = Some item.
Proof.
  unfold Base.scrape_article, axios_get.
  destruct (http articleUrl) as [status data| |]; try discriminate.
  destruct (validateStatus status); [|discriminate].
  destruct (status =? 200)%Z eqn:E; [|discriminate].
  apply Z.eqb_eq in E. subst status. simpl. eauto.
Qed.

Lemma Base_scrape_article_ok (hostname : string) (selectors : Profile)
  (articleUrl data : string) :
  http articleUrl = HttpResponse 200 data ->
  fst (Base.scrape_article hostname selectors articleUrl)
  = Base.extract hostname selectors articleUrl (cheerio_load data).
Proof. intros H. unfold Base.scrape_article. rewrite H. reflexivity. Qed.

(** A reply with news comes from a list page fetched with status 200, a
    profile, and the articles of the links discovered on it. *)
Lemma Base_handler_news_inv (url : string) (news : list NewsItem) (log : list LogEntry) :
  Base.handler url = (ReplyNews news, log) ->
  exists hostname data selectors,
    truthy url = true /\ URL_hostname url = Some hostname
    /\ http url = HttpResponse 200 data
    /\ profileFor hostname = JsProfile selectors
    /\ news = flat_map (fun u => pushed (fst (Base.scrape_article hostname selectors u)))
                (fst (discover (cheerio_load data) url (article selectors))).
Proof.
  unfold Base.handler. destruct (truthy url) eqn:T; [|discriminate]. cbn [negb].
  destruct (URL_hostname url) as [hostname|] eqn:H; [|discriminate].
  unfold Base.after_fetch, axios_get.
  destruct (http url) as [status data| |] eqn:R; try discriminate.
  destruct (validateStatus status); [|discriminate].
  destruct (status =? 403)%Z; [discriminate|].
  destruct (status =? 200)%Z eqn:E; [|discriminate]. cbn [negb].
  apply Z.eqb_eq in E. subst status.
  unfold Base.scrape_page.
  destruct (profileFor hostname) as [selectors| |] eqn:S; try discriminate.
  rewrite Base_scrape_articles_eq. cbn [fst snd].
  destruct (List.length _ =? 0)%nat; [discriminate|].
  intros K. injection K as <- _.
  exists hostname, data, selectors. auto.
Qed.

Lemma Base_handler_news_extracted (url : string) (news : list NewsItem)
  (log : list LogEntry) :
  Base.handler url = (ReplyNews news, log) ->
  exists hostname selectors,
    URL_hostname url = Some hostname
    /\ forall item, In item news ->
         exists articleUrl data,
           Base.extract hostname selectors articleUrl (cheerio_load data) = Some item.
Proof.
  intros H. apply Base_handler_news_inv in H.
  destruct H as [hostname [data [selectors [_ [H [_ [_ ->]]]]]]].
  exists hostname, selectors. split; [exact H|].
  intros item Hin. apply in_flat_map in Hin. destruct Hin as [u [_ Hu]].
  destruct (fst (Base.scrape_article hostname selectors u)) as [i|] eqn:E;
    simpl in Hu; [|contradiction].
  destruct Hu as [<- | []].
  apply Base_scrape_article_some in E. destruct E as [adata [_ E]]. eauto.
Qed.

(** Anchors below a container reach the set of the selector pass. *)
Lemma containers_keep (url : string) (elements : list Element)
  (st : list string * list LogEntry) (u : string) :
  In u (fst st) ->
  In u (fst (fold_left (fun st' element => scan_links url st' (find_a element))
               elements st)).
Proof.
  revert st; induction elements as [|e es IH]; intros st H; simpl; [exact H|].
  apply IH. apply scan_links_keeps. exact H.
Qed.

Lemma selector_pass_finds (page : Document) (url : string)
  (articleSelectors : list string) (s : string) (element link : Element)
  (href u : string) :
  In s articleSelectors -> In element (select page s) -> In link (find_a element) ->
  attr "href" link = Some href -> href <> "" ->
  absolute url href = Some u -> looksLikeArticle u = true ->
  In u (fst (selector_pass page url articleSelectors)).
Proof.
  intros Hs He Hl Hattr Hne Habs Hlooks. unfold selector_pass.
  generalize (@nil string, @nil LogEntry).
  induction articleSelectors as [|s' sels IH]; intros st; simpl in *; [contradiction|].
  destruct Hs as [-> | Hs].
  - clear IH.
    assert (K : forall sels' st', In u (fst st') ->
              In u (fst (fold_left
                (fun st0 articleSelector =>
                   fold_left (fun st'0 element0 => scan_links url st'0 (find_a element0))
                             (select page articleSelector) st0) sels' st'))).
    { induction sels' as [|x xs IHx]; intros st' H; simpl; [exact H|].
      apply IHx. apply containers_keep. exact H. }
    apply K. clear K. revert st.
    induction (select page s) as [|e es IHe]; intros st; simpl in *; [contradiction|].
    destruct He as [-> | He].
    + apply containers_keep.
      apply (scan_links_finds url _ st link href u); assumption.
    + apply IHe. exact He.
  - apply IH. exact Hs.
Qed.

(** No filter on the host: a link found below a container, or, when the
    containers gave nothing, anywhere on the page, is in the set. *)
Lemma discover_finds (page : Document) (url : string)
  (articleSelectors : list string) (link : Element) (href u : string) :
  (exists s element, In s articleSelectors /\ In element (select page s)
                     /\ In link (find_a element))
  \/ (fst (selector_pass page url articleSelectors) = [] /\ In link (select page "a")) ->
  attr "href" link = Some href -> href <> "" ->
  absolute url href = Some u -> looksLikeArticle u = true ->
  In u (fst (discover page url articleSelectors)).
Proof.
  intros Hwhere Hattr Hne Habs Hlooks. unfold discover.
  destruct Hwhere as [[s [element [Hs [He Hl]]]] | [Hempty Hin]].
  - pose proof (selector_pass_finds page url articleSelectors s element link href u
                  Hs He Hl Hattr Hne Habs Hlooks) as F.
    destruct (fst (selector_pass page url articleSelectors)) as [|x l] eqn:E;
      [contradiction|].
    simpl. rewrite E. exact F.
  - rewrite Hempty. simpl.
    apply (scan_links_finds url _ _ link href u); assumption.
Qed.

End Replies.

(** ** C4: how the outcome of the list-page request is reported *)

(** C4: for a well-formed address, an upstream 403 is answered with status
    403 and the forbidden message; any other status than 200 with that
    status; no response or a request that could not be sent with status
    500; an empty list of records with status 404 and the no-articles
    message, as an ordinary reply.  The four replies differ pairwise. *)
Theorem list_fetch_outcomes (P : Platform) (url hostname : string) :
  truthy url = true -> URL_hostname url = Some hostname ->
  (forall data, http url = HttpResponse 403 data ->
     Base.handler url = (ReplyError 403 msg_forbidden, []))
  /\ (forall status data,
        http url = HttpResponse status data -> status <> 200%Z -> status <> 403%Z ->
        Base.handler url = (ReplyError status (upstream_message status), []))
  /\ (http url = NoResponse ->
      Base.handler url = (ReplyError 500 msg_no_response, []))
  /\ (http url = NotSent ->
      Base.handler url = (ReplyError 500 msg_setup, []))
  /\ (forall data selectors,
        http url = HttpResponse 200 data ->
        profileFor hostname = JsProfile selectors ->
        fst (Base.scrape_articles hostname selectors
               (fst (discover (cheerio_load data) url (article selectors)))) = [] ->
        fst (Base.handler url) = ReplyError 404 msg_no_articles)
  /\ (forall status, status <> 403%Z ->
        @ReplyError NewsItem status (upstream_message status) <> ReplyError 403 msg_forbidden
        /\ @ReplyError NewsItem status (upstream_message status) <> ReplyError 500 msg_no_response
        /\ @ReplyError NewsItem status (upstream_message status) <> ReplyError 404 msg_no_articles)
  /\ @ReplyError NewsItem 403 msg_forbidden <> ReplyError 500 msg_no_response
  /\ @ReplyError NewsItem 403 msg_forbidden <> ReplyError 404 msg_no_articles
  /\ @ReplyError NewsItem 500 msg_no_response <> ReplyError 404 msg_no_articles.
Proof.
  intros T H.
  assert (U : forall r, Base.handler url = Base.after_fetch url hostname r
                        \/ http url <> r).
  { intros r. unfold Base.handler. rewrite T, H. cbn [negb].
    destruct (http url) as [s d| |], r as [s' d'| |];
      try (right; discriminate); try (left; reflexivity).
    destruct (Z.eq_dec s s') as [->|N]; [|right; congruence].
    destruct (string_dec d d') as [->|N]; [left; reflexivity | right; congruence]. }
  assert (F : forall r, http url = r ->
                        Base.handler url = Base.after_fetch url hostname r).
  { intros r E. destruct (U r) as [K|K]; [exact K | contradiction]. }
  split; [|split; [|split; [|split; [|split; [|split; [|split; [|split]]]]]]].
  - intros data R. rewrite (F _ R). reflexivity.
  - intros status data R N200 N403. rewrite (F _ R).
    unfold Base.after_fetch, axios_get, upstream_message.
    destruct (validateStatus status); [|reflexivity].
    apply Z.eqb_neq in N200, N403. rewrite N200, N403. reflexivity.
  - intros R. rewrite (F _ R). reflexivity.
  - intros R. rewrite (F _ R). reflexivity.
  - intros data selectors R S E.
    rewrite (Base_handler_reply url hostname data selectors T H R S).
    rewrite Base_scrape_articles_eq in E. cbn [fst] in E. rewrite E. reflexivity.
  - intros status N. unfold upstream_message, msg_failed_status, msg_server_responded.
    repeat split; intros K; destruct (validateStatus status);
      injection K; intros; try congruence; discriminate.
  - discriminate.
  - discriminate.
  - discriminate.
Qed.

Lemma list_fetch_outcomes_witness :
  Base.handler (P := Sample.world) "https://blocked.example/"
    = (ReplyError 403 msg_forbidden, [])
  /\ Base.handler (P := Sample.world) "https://missing.example/"
    = (ReplyError 404 (upstream_message 404), [])
  /\ Base.handler (P := Sample.world) "https://down.example/"
    = (ReplyError 500 msg_no_response, [])
  /\ fst (Base.handler (P := Sample.world) "https://empty.example/")
    = ReplyError 404 msg_no_articles
  /\ @ReplyError NewsItem 404 (upstream_message 404) <> ReplyError 404 msg_no_articles.
Proof.
  split; [|split; [|split; [|split]]].
  - apply (proj1 (list_fetch_outcomes Sample.world "https://blocked.example/"
                    "blocked.example" eq_refl eq_refl) "").
    reflexivity.
  - apply (proj1 (proj2 (list_fetch_outcomes Sample.world "https://missing.example/"
                           "missing.example" eq_refl eq_refl)) 404%Z "");
      [reflexivity | discriminate | discriminate].
  - apply (proj1 (proj2 (proj2 (list_fetch_outcomes Sample.world "https://down.example/"
                                  "down.example" eq_refl eq_refl)))).
    reflexivity.
  - apply (proj1 (proj2 (proj2 (proj2 (proj2
             (list_fetch_outcomes Sample.world "https://empty.example/"
                "empty.example" eq_refl eq_refl))))) "" default_profile);
      reflexivity.
  - apply (proj1 (proj2 (proj2 (proj2 (proj2 (proj2
             (list_fetch_outcomes Sample.world "https://empty.example/"
                "empty.example" eq_refl eq_refl)))))) 404%Z).
    discriminate.
Defined.

(** ** C10: the source of a record *)

(** C10: every record of a reply carries as its source the host name of
    the address submitted, whatever its own address is.  Link discovery
    has no test on the host: an anchor whose reference starts with [http]
    and looks like an article, found below a container or, when the
    containers gave nothing, anywhere on the page, becomes a record with
    that reference as its address and the host name of the list page as
    its source, provided its page has a title. *)
Theorem source_is_list_page_hostname (P : Platform) (url : string) :
  (forall news log, Base.handler url = (ReplyNews news, log) ->
     exists hostname, URL_hostname url = Some hostname
       /\ forall item, In item news -> item_source item = hostname)
  /\ (forall hostname data selectors link href adata item,
        truthy url = true -> URL_hostname url = Some hostname ->
        http url = HttpResponse 200 data ->
        profileFor hostname = JsProfile selectors ->
        ((exists s element, In s (article selectors)
            /\ In element (select (cheerio_load data) s)
            /\ In link (find_a element))
         \/ (fst (selector_pass (cheerio_load data) url (article selectors)) = []
             /\ In link (select (cheerio_load data) "a"))) ->
        attr "href" link = Some href ->
        startsWith "http" href = true -> looksLikeArticle href = true ->
        http href = HttpResponse 200 adata ->
        Base.extract hostname selectors href (cheerio_load adata) = Some item ->
        item_url item = href /\ item_source item = hostname
        /\ exists news, fst (Base.handler url) = ReplyNews news /\ In item news).
Proof.
  split.
  - intros news log H. apply Base_handler_news_extracted in H.
    destruct H as [hostname [selectors [H Hall]]]. exists hostname. split; [exact H|].
    intros item Hin. destruct (Hall item Hin) as [articleUrl [data E]].
    apply Base_extract_some in E. destruct E as [_ ->]. reflexivity.
  - intros hostname data selectors link href adata item T H R S Hwhere Hattr Hhttp
      Hlooks Ra E.
    pose proof (Base_extract_some _ _ _ _ _ E) as [_ Hitem].
    split; [rewrite Hitem; reflexivity|]. split; [rewrite Hitem; reflexivity|].
    rewrite (Base_handler_reply url hostname data selectors T H R S).
    assert (D : In href (fst (discover (cheerio_load data) url (article selectors)))).
    { apply (discover_finds _ _ _ link href href Hwhere Hattr).
      - intros ->. discriminate.
      - unfold absolute. rewrite Hhttp. reflexivity.
      - exact Hlooks. }
    assert (I : In item
                  (flat_map (fun u => pushed (fst (Base.scrape_article hostname selectors u)))
                     (fst (discover (cheerio_load data) url (article selectors))))).
    { apply in_flat_map. exists href. split; [exact D|].
      rewrite (Base_scrape_article_ok hostname selectors href adata Ra), E.
      simpl. auto. }
    destruct (flat_map _ _) as [|i items]; [contradiction|].
    exists (i :: items). auto.
Qed.

Lemma source_is_list_page_hostname_witness :
  (exists hostname, URL_hostname (Platform := Sample.world) Sample.list_url = Some hostname
     /\ forall item,
          In item (match fst (Base.handler (P := Sample.world) Sample.list_url) with
                   | ReplyNews news => news
                   | ReplyError _ _ => []
                   end) ->
          item_source item = hostname)
  /\ (item_url (mkNewsItem "Elsewhere" "Unknown" "2026-01-01T00:00:00.000Z"
                  "site.com" Sample.other_url None) = Sample.other_url
      /\ item_source (mkNewsItem "Elsewhere" "Unknown" "2026-01-01T00:00:00.000Z"
                        "site.com" Sample.other_url None) = "site.com"
      /\ exists news,
           fst (Base.handler (P := Sample.world) Sample.list_url) = ReplyNews news
           /\ In (mkNewsItem "Elsewhere" "Unknown" "2026-01-01T00:00:00.000Z"
                    "site.com" Sample.other_url None) news).
Proof.
  destruct (source_is_list_page_hostname Sample.world Sample.list_url) as [S C].
  split.
  - apply (S _ (snd (Base.handler (P := Sample.world) Sample.list_url))).
    reflexivity.
  - apply (C "site.com" "<list>" default_profile (Sample.anchor Sample.other_url)
             Sample.other_url "<elsewhere>"); try reflexivity.
    + right. split; [reflexivity|]. vm_compute. auto 6.
Defined.

(** ** C3: what an emitted record holds *)

Section ExtendedReplies.

Context {P : Platform}.

Lemma Extended_scrape_articles_eq (hostname : string) (selectors : Profile)
  (links : list string) :
  Extended.scrape_articles hostname selectors links
  = (flat_map (fun u => pushed (fst (Extended.scrape_article hostname selectors u))) links,
     flat_map (fun u => snd (Extended.scrape_article hostname selectors u)) links).
Proof. unfold Extended.scrape_articles. rewrite fold_push. reflexivity. Qed.

Lemma Extended_scrape_article_some (hostname : string) (selectors : Profile)
  (articleUrl : string) (r : ExtendedItem) :
  fst (Extended.scrape_article hostname selectors articleUrl) = Some r ->
  exists data, http articleUrl = HttpResponse 200 data
    /\ Extended.extract hostname selectors articleUrl (cheerio_load data) = Some r.
Proof.
  unfold Extended.scrape_article, axios_get.
  destruct (http articleUrl) as [status data| |]; try discriminate.
  destruct (validateStatus status); [|discriminate].
  destruct (status =? 200)%Z eqn:E; [|discriminate].
  apply Z.eqb_eq in E. subst status. simpl. eauto.
Qed.

(** The records of a reply of the extended server are those of articles
    fetched with status 200. *)
Lemma Extended_handler_news_extracted (url : string) (news : list ExtendedItem)
  (log : list LogEntry) :
  Extended.handler url = (ReplyNews news, log) ->
  exists hostname selectors,
    URL_hostname url = Some hostname
    /\ forall r, In r news ->
         exists articleUrl data,
           http articleUrl = HttpResponse 200 data
           /\ Extended.extract hostname selectors articleUrl (cheerio_load data) = Some r.
Proof.
  unfold Extended.handler. destruct (truthy url); [|discriminate]. cbn [negb].
  destruct (URL_hostname url) as [hostname|]; [|discriminate].
  unfold Extended.after_fetch, axios_get.
  destruct (http url) as [status data| |]; try discriminate.
  destruct (validateStatus status); [|discriminate].
  destruct (status =? 403)%Z; [discriminate|].
  destruct (status =? 200)%Z; [|discriminate]. cbn [negb].
  unfold Extended.scrape_page.
  destruct (profileFor hostname) as [selectors| |]; try discriminate.
  rewrite Extended_scrape_articles_eq. cbn [fst snd].
  destruct (List.length _ =? 0)%nat; [discriminate|].
  intros K. injection K as <- _.
  exists hostname, selectors. split; [reflexivity|].
  intros r Hin. apply in_flat_map in Hin. destruct Hin as [u [_ Hu]].
  destruct (fst (Extended.scrape_article hostname selectors u)) as [i|] eqn:E;
    simpl in Hu; [|contradiction].
  destruct Hu as [<- | []].
  apply Extended_scrape_article_some in E. destruct E as [adata [R E]]. eauto.
Qed.

(** [x || fallback] is never empty when the fallback is not. *)
Lemma or_else_nonempty (x fallback : string) :
  fallback <> "" -> or_else x fallback <> "".
Proof.
  intros F. unfold or_else. destruct (truthy x) eqn:T; [|exact F].
  apply truthy_iff. exact T.
Qed.

Lemma or_else_cases (x fallback : string) :
  (x = "" -> or_else x fallback = fallback) /\ (x <> "" -> or_else x fallback = x).
Proof.
  unfold or_else. split.
  - intros ->. reflexivity.
  - intros N. apply truthy_iff in N. rewrite N. reflexivity.
Qed.

(** [imageUrl || null] of an image search: [null], or an address that
    passed the extension test. *)
Lemma or_null_extract_image (articleDoc : Document) (articleUrl : string)
  (selectors : list string) :
  or_null (extract_image articleDoc articleUrl selectors) = None
  \/ exists u, or_null (extract_image articleDoc articleUrl selectors) = Some u
               /\ u <> "" /\ ends_in_image_extension u.
Proof.
  unfold or_null.
  destruct (truthy (extract_image articleDoc articleUrl selectors)) eqn:I;
    [|left; reflexivity].
  right. eexists. split; [reflexivity|]. split; [apply truthy_iff; exact I|].
  apply test_image_ext_iff.
  destruct (extract_image_image_ext articleDoc articleUrl selectors) as [Z|Z]; [|exact Z].
  rewrite Z in I. discriminate.
Qed.

End ExtendedReplies.

(** C3, as stated for every variant, fails on the capped function, which
    pushes the fields as they were read: an article without an author
    element is emitted with the empty author, not with [Unknown], and its
    date stays empty. *)
Lemma capped_record_has_no_defaults_counterexample :
  Capped.extract (P := Sample.world) default_profile Sample.good_url
    (Sample.article_page "First")
  = inr (Some (mkCappedItem "First" "" "" (Some "") Sample.good_url))
  /\ (exists log,
        Capped.handler (P := Sample.world) "POST" Sample.list_url
        = (ReplyNews
             [ mkCappedItem "First" "" "" (Some "") Sample.good_url;
               mkCappedItem "Second" "" "" (Some "") Sample.late_url;
               mkCappedItem "Elsewhere" "" "" (Some "") Sample.other_url ], log)).
Proof. split; [reflexivity | eexists; reflexivity]. Qed.

(** C3, amended: in the base and in the extended server a record is
    emitted exactly when the title found is non-empty; its author is the
    one extracted, or [Unknown] when none was; its date is the formatted
    date, or the current time when formatting gave nothing; its image is
    [null] or a non-empty address that passed the extension test; and
    every record of a reply of either server is such a record.  In the
    capped function only the title is guarded: author and date are the
    texts read, possibly empty. *)
Theorem emitted_record_fields (P : Platform) (hostname : string)
  (selectors : Profile) (articleUrl : string) (articleDoc : Document) :
  (Base.extract hostname selectors articleUrl articleDoc = None
   <-> base_title articleDoc (title selectors) = "")
  /\ (forall item,
        Base.extract hostname selectors articleUrl articleDoc = Some item ->
        item_title item <> ""
        /\ (field_of_selectors articleDoc (author selectors) = "" ->
            item_author item = "Unknown")
        /\ (field_of_selectors articleDoc (author selectors) <> "" ->
            item_author item = field_of_selectors articleDoc (author selectors))
        /\ (formatDate (field_of_selectors articleDoc (date selectors)) = "" ->
            item_date item = now articleUrl)
        /\ (formatDate (field_of_selectors articleDoc (date selectors)) <> "" ->
            item_date item = formatDate (field_of_selectors articleDoc (date selectors)))
        /\ (item_imageUrl item = None
            \/ exists u, item_imageUrl item = Some u /\ u <> ""
                         /\ ends_in_image_extension u))
  /\ (forall url news log item,
        Base.handler url = (ReplyNews news, log) -> In item news ->
        item_title item <> "" /\ item_author item <> ""
        /\ (item_imageUrl item = None
            \/ exists u, item_imageUrl item = Some u /\ u <> ""
                         /\ ends_in_image_extension u)
        /\ exists h sel u data,
             Base.extract h sel u (cheerio_load data) = Some item)
  /\ (Extended.extract hostname selectors articleUrl articleDoc = None
      <-> Extended.first_match_text articleDoc (title selectors) = "")
  /\ (forall r,
        Extended.extract hostname selectors articleUrl articleDoc = Some r ->
        item_title (ext_item r) <> ""
        /\ (Extended.first_match_text articleDoc (author selectors) = "" ->
            item_author (ext_item r) = "Unknown")
        /\ (Extended.first_match_text articleDoc (author selectors) <> "" ->
            item_author (ext_item r)
              = Extended.first_match_text articleDoc (author selectors))
        /\ (formatDate (Extended.first_match_text articleDoc (date selectors)) = "" ->
            item_date (ext_item r) = now articleUrl)
        /\ (formatDate (Extended.first_match_text articleDoc (date selectors)) <> "" ->
            item_date (ext_item r)
              = formatDate (Extended.first_match_text articleDoc (date selectors)))
        /\ (item_imageUrl (ext_item r) = None
            \/ exists u, item_imageUrl (ext_item r) = Some u /\ u <> ""
                         /\ ends_in_image_extension u))
  /\ (forall url news log r,
        Extended.handler url = (ReplyNews news, log) -> In r news ->
        item_title (ext_item r) <> "" /\ item_author (ext_item r) <> ""
        /\ (item_imageUrl (ext_item r) = None
            \/ exists u, item_imageUrl (ext_item r) = Some u /\ u <> ""
                         /\ ends_in_image_extension u)
        /\ exists h sel u data,
             Extended.extract h sel u (cheerio_load data) = Some r)
  /\ (forall item,
        Capped.extract selectors articleUrl articleDoc = inr (Some item) ->
        c_title item <> ""
        /\ c_author item = Extended.first_match_text articleDoc (author selectors)
        /\ c_date item = Extended.first_match_text articleDoc (date selectors)).
Proof.
  assert (B : forall h sel u doc item,
             Base.extract h sel u doc = Some item ->
             item_title item <> ""
             /\ (field_of_selectors doc (author sel) = "" -> item_author item = "Unknown")
             /\ (field_of_selectors doc (author sel) <> "" ->
                 item_author item = field_of_selectors doc (author sel))
             /\ (formatDate (field_of_selectors doc (date sel)) = "" ->
                 item_date item = now u)
             /\ (formatDate (field_of_selectors doc (date sel)) <> "" ->
                 item_date item = formatDate (field_of_selectors doc (date sel)))
             /\ (item_imageUrl item = None
                 \/ exists x, item_imageUrl item = Some x /\ x <> ""
                              /\ ends_in_image_extension x)).
  { intros h sel u doc item E. apply Base_extract_some in E. destruct E as [T ->].
    cbn [item_title item_author item_date item_imageUrl].
    split; [apply truthy_iff; exact T|].
    split; [apply or_else_cases|]. split; [apply or_else_cases|].
    split; [apply or_else_cases|]. split; [apply or_else_cases|].
    apply or_null_extract_image. }
  assert (X : forall h sel u doc r,
             Extended.extract h sel u doc = Some r ->
             item_title (ext_item r) <> ""
             /\ (Extended.first_match_text doc (author sel) = "" ->
                 item_author (ext_item r) = "Unknown")
             /\ (Extended.first_match_text doc (author sel) <> "" ->
                 item_author (ext_item r) = Extended.first_match_text doc (author sel))
             /\ (formatDate (Extended.first_match_text doc (date sel)) = "" ->
                 item_date (ext_item r) = now u)
             /\ (formatDate (Extended.first_match_text doc (date sel)) <> "" ->
                 item_date (ext_item r)
                   = formatDate (Extended.first_match_text doc (date sel)))
             /\ (item_imageUrl (ext_item r) = None
                 \/ exists x, item_imageUrl (ext_item r) = Some x /\ x <> ""
                              /\ ends_in_image_extension x)).
  { intros h sel u doc r. unfold Extended.extract.
    destruct (truthy (Extended.first_match_text doc (title sel))) eqn:T; [|discriminate].
    intros E. injection E as <-.
    cbn [ext_item item_title item_author item_date item_imageUrl].
    split; [apply truthy_iff; exact T|].
    split; [apply or_else_cases|]. split; [apply or_else_cases|].
    split; [apply or_else_cases|]. split; [apply or_else_cases|].
    apply or_null_extract_image. }
  split; [|split; [|split; [|split; [|split; [|split]]]]].
  - unfold Base.extract. rewrite <- truthy_false_iff.
    destruct (truthy (base_title articleDoc (title selectors))); split; congruence.
  - apply B.
  - intros url news log item H Hin. apply Base_handler_news_extracted in H.
    destruct H as [h [sel [_ Hall]]]. destruct (Hall item Hin) as [u [data E]].
    destruct (B _ _ _ _ _ E) as [Ht [Ha0 [Ha1 [_ [_ Hi]]]]].
    split; [exact Ht|]. split; [|split; [exact Hi | eauto]].
    destruct (string_dec (field_of_selectors (cheerio_load data) (author sel)) "") as [Z|Z].
    + rewrite (Ha0 Z). discriminate.
    + rewrite (Ha1 Z). exact Z.
  - unfold Extended.extract. rewrite <- truthy_false_iff.
    destruct (truthy (Extended.first_match_text articleDoc (title selectors)));
      split; congruence.
  - apply X.
  - intros url news log r H Hin. apply Extended_handler_news_extracted in H.
    destruct H as [h [sel [_ Hall]]]. destruct (Hall r Hin) as [u [data [_ E]]].
    destruct (X _ _ _ _ _ E) as [Ht [Ha0 [Ha1 [_ [_ Hi]]]]].
    split; [exact Ht|]. split; [|split; [exact Hi | eauto]].
    destruct (string_dec (Extended.first_match_text (cheerio_load data) (author sel)) "")
      as [Z|Z].
    + rewrite (Ha0 Z). discriminate.
    + rewrite (Ha1 Z). exact Z.
  - intros item. unfold Capped.extract.
    destruct (Capped.extract_image articleDoc articleUrl (image selectors)); [discriminate|].
    destruct (truthy (Extended.first_match_text articleDoc (title selectors))) eqn:T;
      [|discriminate].
    intros E. injection E as <-. cbn [c_title c_author c_date].
    split; [apply truthy_iff; exact T | split; reflexivity].
Qed.

Lemma emitted_record_fields_witness :
  (let item := mkNewsItem "First" "Unknown" "2026-01-01T00:00:00.000Z" "site.com"
                 Sample.good_url None in
   item_title item <> "" /\ item_author item = "Unknown"
   /\ item_date item = now (Platform := Sample.world) Sample.good_url)
  /\ (let r := mkExtendedItem
                 (mkNewsItem "First" "Unknown" "2026-01-01T00:00:00.000Z" "site.com"
                    Sample.good_url None) None in
      item_title (ext_item r) <> "" /\ item_author (ext_item r) = "Unknown"
      /\ item_date (ext_item r) = now (Platform := Sample.world) Sample.good_url)
  /\ (forall r,
        In r (match fst (Extended.handler (P := Sample.world) Sample.list_url) with
              | ReplyNews news => news
              | ReplyError _ _ => []
              end) ->
        item_title (ext_item r) <> "" /\ item_author (ext_item r) <> "")
  /\ (let item := mkCappedItem "First" "" "" (Some "") Sample.good_url in
      c_title item <> "" /\ c_author item = "" /\ c_date item = "").
Proof.
  destruct (emitted_record_fields Sample.world "site.com" default_profile
              Sample.good_url (Sample.article_page "First"))
    as [_ [B [_ [_ [X [XH C]]]]]].
  split; [|split; [|split]].
  - destruct (B (mkNewsItem "First" "Unknown" "2026-01-01T00:00:00.000Z" "site.com"
                   Sample.good_url None) eq_refl) as [Ht [Ha [_ [Hd _]]]].
    split; [exact Ht|]. split; [exact (Ha eq_refl) | exact (Hd eq_refl)].
  - destruct (X (mkExtendedItem
                   (mkNewsItem "First" "Unknown" "2026-01-01T00:00:00.000Z" "site.com"
                      Sample.good_url None) None) eq_refl) as [Ht [Ha [_ [Hd _]]]].
    split; [exact Ht|]. split; [exact (Ha eq_refl) | exact (Hd eq_refl)].
  - intros r Hin.
    destruct (XH Sample.list_url _
                (snd (Extended.handler (P := Sample.world) Sample.list_url)) r
                eq_refl Hin) as [Ht [Ha _]].
    split; assumption.
  - exact (C (mkCappedItem "First" "" "" (Some "") Sample.good_url) eq_refl).
Defined.

(** ** C9: the registry lookup *)

(** C9 holds for every host name that is not the name of a member every
    object inherits: the lookup gives the entry of that name when the
    registry has one, and the default profile otherwise. *)
Lemma profileFor_own_or_default (hostname : string) :
  existsb (String.eqb hostname) object_prototype_keys = false ->
  profileFor hostname
  = JsProfile (match assoc hostname websiteSelectors with
               | Some p => p
               | None => default_profile
               end).
Proof.
  intros H. unfold profileFor, profileFor_in, js_get. rewrite H.
  destruct (assoc hostname websiteSelectors); reflexivity.
Qed.

(** C9 fails for the host name [constructor]: the property read finds the
    inherited member, which is truthy, so the default profile is not
    taken; the value has no [article] list and the handler ends in the
    outer [catch] with status 500.  The capped function does the same. *)
Theorem profileFor_inherited_member (P : Platform) (url data : string) :
  profileFor "constructor" = JsInherited "constructor"
  /\ Capped.profileFor "constructor" = JsInherited "constructor"
  /\ (truthy url = true -> URL_hostname url = Some "constructor" ->
      http url = HttpResponse 200 data ->
      Base.handler url = (ReplyError 500 msg_setup, [])).
Proof.
  split; [reflexivity|]. split; [reflexivity|].
  intros T H R. unfold Base.handler. rewrite T, H. cbn [negb].
  unfold Base.after_fetch. rewrite R. reflexivity.
Qed.

Lemma profileFor_inherited_member_witness :
  Base.handler (P := Sample.world) "https://constructor/"
  = (ReplyError 500 msg_setup, []).
Proof.
  apply (proj2 (proj2 (profileFor_inherited_member Sample.world
                         "https://constructor/" "<list>")));
    reflexivity.
Defined.

(** * Further properties of the code *)

(** ** What the set of links holds *)

Section LinkSet.

Context {P : Platform}.

Lemma NoDup_set_add (x : string) (set : list string) :
  NoDup set -> NoDup (set_add x set).
Proof.
  intros H. unfold set_add. destruct (existsb (String.eqb x) set) eqn:E; [exact H|].
  apply NoDup_app; [exact H | constructor; [intros [] | constructor] |].
  intros y Hy [Exy | []]. subst y.
  assert (K : existsb (String.eqb x) set = true).
  { apply existsb_exists. exists x. split; [exact Hy | apply String.eqb_refl]. }
  congruence.
Qed.

Lemma consider_link_NoDup (url : string) (st : list string * list LogEntry)
  (link : Element) :
  NoDup (fst st) -> NoDup (fst (consider_link url st link)).
Proof.
  intros H. unfold consider_link.
  destruct (attr "href" link) as [href|]; [|exact H].
  destruct (truthy href); [|exact H].
  destruct (absolute url href) as [a|]; [|exact H].
  destruct (looksLikeArticle a); [|exact H].
  simpl. apply NoDup_set_add. exact H.
Qed.

Lemma scan_links_NoDup (url : string) (links : list Element)
  (st : list string * list LogEntry) :
  NoDup (fst st) -> NoDup (fst (scan_links url st links)).
Proof.
  revert st; induction links as [|l links IH]; intros st H; simpl; [exact H|].
  apply IH. apply consider_link_NoDup. exact H.
Qed.

(** Whatever holds of the links already in the set, and of every link an
    anchor of the list can contribute, holds of the set after the scan. *)
Lemma scan_links_all (url : string) (I : string -> Prop) (links : list Element)
  (st : list string * list LogEntry) :
  (forall u, In u (fst st) -> I u) ->
  (forall link href u, In link links -> attr "href" link = Some href ->
     absolute url href = Some u -> looksLikeArticle u = true -> I u) ->
  forall u, In u (fst (scan_links url st links)) -> I u.
Proof.
  revert st; induction links as [|l links IH]; intros st H0 Hstep; simpl; [exact H0|].
  apply IH.
  - intros u. unfold consider_link.
    destruct (attr "href" l) as [href|] eqn:A; [|apply H0].
    destruct (truthy href); [|apply H0].
    destruct (absolute url href) as [a|] eqn:Ab; [|apply H0].
    destruct (looksLikeArticle a) eqn:L; [|apply H0].
    simpl. intros Hin. apply In_set_add in Hin. destruct Hin as [-> | Hin].
    + apply (Hstep l href a); auto. left. reflexivity.
    + apply H0. exact Hin.
  - intros link href u Hin. apply Hstep. right. exact Hin.
Qed.

(** The two passes as one induction: an invariant of the running state
    that every scan of a list of eligible anchors keeps. *)
Lemma selector_pass_invariant (page : Document) (url : string)
  (articleSelectors : list string) (J : list string * list LogEntry -> Prop) :
  J ([], []) ->
  (forall st links,
     (forall link, In link links -> anchor_of page articleSelectors link) ->
     J st -> J (scan_links url st links)) ->
  J (selector_pass page url articleSelectors).
Proof.
  intros J0 Jscan. unfold selector_pass.
  assert (G : forall sels st,
             (forall s, In s sels -> In s articleSelectors) -> J st ->
             J (fold_left
                  (fun st0 articleSelector =>
                     fold_left (fun st' element => scan_links url st' (find_a element))
                               (select page articleSelector) st0)
                  sels st)).
  { induction sels as [|s sels IH]; intros st Hsub Hst; simpl; [exact Hst|].
    apply IH; [intros s' Hs'; apply Hsub; right; exact Hs'|].
    assert (E : forall es st', (forall e, In e es -> In e (select page s)) -> J st' ->
                J (fold_left (fun st'0 element => scan_links url st'0 (find_a element))
                     es st')).
    { induction es as [|e es IHe]; intros st' Hes Hst'; simpl; [exact Hst'|].
      apply IHe; [intros e' He'; apply Hes; right; exact He'|].
      apply Jscan; [|exact Hst'].
      intros link Hl. left. exists s, e.
      split; [apply Hsub; left; reflexivity|].
      split; [apply Hes; left; reflexivity | exact Hl]. }
    apply E; [auto | exact Hst]. }
  apply G; auto.
Qed.

Lemma discover_invariant (page : Document) (url : string)
  (articleSelectors : list string) (J : list string -> Prop) :
  J [] ->
  (forall st links,
     (forall link, In link links -> anchor_of page articleSelectors link) ->
     J (fst st) -> J (fst (scan_links url st links))) ->
  J (fst (discover page url articleSelectors)).
Proof.
  intros J0 Jscan.
  assert (S : J (fst (selector_pass page url articleSelectors))).
  { apply (selector_pass_invariant page url articleSelectors (fun st => J (fst st)));
      assumption. }
  unfold discover.
  destruct (List.length (fst (selector_pass page url articleSelectors)) =? 0)%nat;
    [|exact S].
  apply Jscan; [|exact S]. intros link Hl. right. exact Hl.
Qed.

Lemma discover_capped_fst (page : Document) (url : string)
  (articleSelectors : list string) :
  fst (discover_capped page url articleSelectors)
  = fst (discover page url articleSelectors).
Proof.
  unfold discover, discover_capped.
  destruct (List.length (fst (selector_pass page url articleSelectors)) =? 0)%nat;
    [|reflexivity].
  apply scan_links_fst. reflexivity.
Qed.

Lemma discover_NoDup (page : Document) (url : string) (articleSelectors : list string) :
  NoDup (fst (discover page url articleSelectors)).
Proof.
  apply (discover_invariant page url articleSelectors (@NoDup string)).
  - constructor.
  - intros st links _. apply scan_links_NoDup.
Qed.

Lemma discover_sound (page : Document) (url : string) (articleSelectors : list string)
  (u : string) :
  In u (fst (discover page url articleSelectors)) ->
  looksLikeArticle u = true
  /\ exists link href,
       anchor_of page articleSelectors link /\ attr "href" link = Some href
       /\ absolute url href = Some u.
Proof.
  revert u.
  apply (discover_invariant page url articleSelectors
           (fun set => forall u, In u set ->
              looksLikeArticle u = true
              /\ exists link href,
                   anchor_of page articleSelectors link /\ attr "href" link = Some href
                   /\ absolute url href = Some u)).
  - intros u [].
  - intros st links Hlinks H0.
    apply (scan_links_all url _ links st H0).
    intros link href u Hin Ha Hab Hl. split; [exact Hl|].
    exists link, href. auto.
Qed.

End LinkSet.

(** X1: the set of links, in the servers and in the capped function
    alike, never holds an address twice, holds only addresses that pass
    the article test, and each of them is what the reference of an anchor
    of the page (below a container of one of the selectors given, or
    anywhere on the page) resolves to. *)
Theorem discovered_links_sound (P : Platform) (page : Document) (url : string)
  (articleSelectors : list string) :
  NoDup (fst (discover page url articleSelectors))
  /\ (forall u, In u (fst (discover page url articleSelectors)) ->
        looksLikeArticle u = true
        /\ exists link href,
             anchor_of page articleSelectors link /\ attr "href" link = Some href
             /\ absolute url href = Some u)
  /\ NoDup (fst (discover_capped page url articleSelectors))
  /\ (forall u, In u (fst (discover_capped page url articleSelectors)) ->
        looksLikeArticle u = true
        /\ exists link href,
             anchor_of page articleSelectors link /\ attr "href" link = Some href
             /\ absolute url href = Some u).
Proof.
  rewrite discover_capped_fst.
  split; [apply discover_NoDup|]. split; [apply discover_sound|].
  split; [apply discover_NoDup | apply discover_sound].
Qed.

Lemma discovered_links_sound_witness :
  (looksLikeArticle Sample.other_url = true
   /\ exists link href,
        anchor_of Sample.list_page (article default_profile) link
        /\ attr "href" link = Some href
        /\ absolute (P := Sample.world) Sample.list_url href = Some Sample.other_url)
  /\ (looksLikeArticle Sample.good_url = true
      /\ exists link href,
           anchor_of Sample.list_page
             (abs_cbn_article_head ++ abs_cbn_article_tail)%list link
           /\ attr "href" link = Some href
           /\ absolute (P := Sample.world) Sample.list_url href = Some Sample.good_url).
Proof.
  split.
  - apply (proj1 (proj2 (discovered_links_sound Sample.world Sample.list_page
                           Sample.list_url (article default_profile)))).
    vm_compute. auto 6.
  - apply (proj2 (proj2 (proj2 (discovered_links_sound Sample.world Sample.list_page
                                  Sample.list_url
                                  (abs_cbn_article_head ++ abs_cbn_article_tail)%list)))).
    vm_compute. auto 6.
Defined.

(** ** What a reply of the base server holds *)

Section ReplyShape.

Context {P : Platform}.

Lemma map_flat_map_pushed {A : Type} (f : string -> option A) (g : A -> string)
  (l : list string) :
  (forall u item, f u = Some item -> g item = u) ->
  map g (flat_map (fun u => pushed (f u)) l) = filter (fun u => is_some (f u)) l.
Proof.
  intros H. induction l as [|u l IH]; simpl; [reflexivity|].
  rewrite map_app, IH. destruct (f u) as [item|] eqn:E; simpl; [|reflexivity].
  rewrite (H u item E). reflexivity.
Qed.

Lemma length_flat_map_pushed {A : Type} (f : string -> option A) (l : list string) :
  (List.length (flat_map (fun u => pushed (f u)) l) <= List.length l)%nat.
Proof.
  induction l as [|u l IH]; simpl; [lia|].
  rewrite length_app. destruct (f u); simpl; lia.
Qed.

Lemma Base_scrape_article_url (hostname : string) (selectors : Profile)
  (u : string) (item : NewsItem) :
  fst (Base.scrape_article hostname selectors u) = Some item -> item_url item = u.
Proof.
  intros H. apply Base_scrape_article_some in H. destruct H as [data [_ E]].
  apply Base_extract_some in E. destruct E as [_ ->]. reflexivity.
Qed.

Lemma msg_failed_status_nonempty (status : Z) : msg_failed_status status <> "".
Proof. unfold msg_failed_status. simpl. discriminate. Qed.

Lemma msg_server_responded_nonempty (status : Z) : msg_server_responded status <> "".
Proof. unfold msg_server_responded. simpl. discriminate. Qed.

(** What the handler gives to [res]: either a non-empty list of records,
    or a status other than 200 with a non-empty text given to [json]. *)
Lemma Base_handler_shape (url : string) :
  (exists item items, fst (Base.handler url) = ReplyNews (item :: items))
  \/ (exists status error,
        fst (Base.handler url) = ReplyError status error
        /\ status <> 200%Z /\ error <> "").
Proof.
  unfold Base.handler. destruct (truthy url); cbn [negb];
    [|right; exists 400%Z, msg_url_required; repeat split; discriminate].
  destruct (URL_hostname url) as [hostname|];
    [|right; exists 400%Z, msg_invalid_url; repeat split; discriminate].
  unfold Base.after_fetch, axios_get.
  destruct (http url) as [status data| |];
    [| right; exists 500%Z, msg_no_response; repeat split; discriminate
     | right; exists 500%Z, msg_setup; repeat split; discriminate].
  destruct (validateStatus status) eqn:V.
  - destruct (status =? 403)%Z eqn:E403;
      [right; exists 403%Z, msg_forbidden; repeat split; discriminate|].
    destruct (status =? 200)%Z eqn:E200; cbn [negb].
    + unfold Base.scrape_page.
      destruct (profileFor hostname) as [selectors| |];
        try (right; exists 500%Z, msg_setup; repeat split; discriminate).
      rewrite Base_scrape_articles_eq. cbn [fst snd].
      destruct (flat_map _ _) as [|item items]; cbn [List.length Nat.eqb fst].
      * right. exists 404%Z, msg_no_articles. repeat split; discriminate.
      * left. exists item, items. reflexivity.
    + right. exists status, (msg_failed_status status). cbn [fst].
      split; [reflexivity|]. split; [apply Z.eqb_neq; exact E200|].
      apply msg_failed_status_nonempty.
  - right. exists status, (msg_server_responded status). cbn [fst catch_reply].
    split; [reflexivity|]. split; [|apply msg_server_responded_nonempty].
    intros ->. discriminate V.
Qed.

End ReplyShape.

(** X2: in a reply of the base server no two records have the same
    address, every address passes the article test, and the addresses are,
    in the order of discovery, those links whose article yielded a
    record. *)
Theorem reply_records_follow_links (P : Platform) (url : string)
  (news : list NewsItem) (log : list LogEntry) :
  Base.handler url = (ReplyNews news, log) ->
  NoDup (map item_url news)
  /\ (forall item, In item news -> looksLikeArticle (item_url item) = true)
  /\ exists hostname data selectors,
       URL_hostname url = Some hostname /\ http url = HttpResponse 200 data
       /\ profileFor hostname = JsProfile selectors
       /\ map item_url news
          = filter (fun u => is_some (fst (Base.scrape_article hostname selectors u)))
              (fst (discover (cheerio_load data) url (article selectors))).
Proof.
  intros H. apply Base_handler_news_inv in H.
  destruct H as [hostname [data [selectors [_ [Hh [Hr [Hs ->]]]]]]].
  assert (E : map item_url
                (flat_map (fun u => pushed (fst (Base.scrape_article hostname selectors u)))
                   (fst (discover (cheerio_load data) url (article selectors))))
              = filter (fun u => is_some (fst (Base.scrape_article hostname selectors u)))
                  (fst (discover (cheerio_load data) url (article selectors)))).
  { apply map_flat_map_pushed. intros u item.
    apply Base_scrape_article_url. }
  split; [|split].
  - rewrite E. apply NoDup_filter. apply discover_NoDup.
  - intros item Hin.
    assert (I : In (item_url item)
                  (filter (fun u => is_some (fst (Base.scrape_article hostname selectors u)))
                     (fst (discover (cheerio_load data) url (article selectors))))).
    { rewrite <- E. apply in_map. exact Hin. }
    apply filter_In in I. destruct I as [I _].
    apply discover_sound in I. exact (proj1 I).
  - exists hostname, data, selectors. auto.
Qed.

Lemma reply_records_follow_links_witness :
  NoDup (map item_url
           [ mkNewsItem "First" "Unknown" "2026-01-01T00:00:00.000Z" "site.com"
               Sample.good_url None;
             mkNewsItem "Second" "Unknown" "2026-01-01T00:00:00.000Z" "site.com"
               Sample.late_url None;
             mkNewsItem "Elsewhere" "Unknown" "2026-01-01T00:00:00.000Z" "site.com"
               Sample.other_url None ]).
Proof.
  apply (reply_records_follow_links Sample.world Sample.list_url _ [LogGeneralApproach]).
  reflexivity.
Defined.

(** X3: the base server answers with status 200 exactly when it has at
    least one record to send; no error is ever sent with status 200, and
    no list of records with another status. *)
Theorem status_200_iff_news (P : Platform) (url : string) :
  (reply_status (fst (Base.handler url)) = 200%Z
   <-> exists item items, fst (Base.handler url) = ReplyNews (item :: items))
  /\ (forall status error,
        fst (Base.handler url) = ReplyError status error -> status <> 200%Z)
  /\ (forall news, fst (Base.handler url) = ReplyNews news -> news <> []).
Proof.
  destruct (Base_handler_shape url) as [[item [items E]] | [status [error [E [N M]]]]];
    rewrite E.
  - split; [|split].
    + split; [intros _; eauto | reflexivity].
    + intros s e K. discriminate K.
    + intros news K. injection K as <-. discriminate.
  - split; [|split].
    + split; [intros K; simpl in K; contradiction|].
      intros [item [items K]]. discriminate K.
    + intros s e K. injection K as <- _. exact N.
    + intros news K. discriminate K.
Qed.

Lemma status_200_iff_news_witness :
  fst (Base.handler (P := Sample.world) "https://empty.example/")
    = ReplyError 404 msg_no_articles
  /\ reply_status (fst (Base.handler (P := Sample.world) "https://empty.example/"))
     <> 200%Z.
Proof.
  split; [reflexivity|].
  apply (proj1 (proj2 (status_200_iff_news Sample.world "https://empty.example/"))
           404%Z msg_no_articles).
  reflexivity.
Defined.

(** X4: the capped function, once the list page arrived with status 200
    and the registry gave a profile, always answers with status 200 and a
    list, empty or not; the list has at most ten records, at most one for
    each of the first ten links, in their order. *)
Theorem capped_reply_is_bounded (P : Platform) (url hostname data : string)
  (selectors : Profile) :
  truthy url = true -> URL_hostname url = Some hostname ->
  http url = HttpResponse 200 data ->
  Capped.profileFor hostname = JsProfile selectors ->
  exists items log,
    Capped.handler "POST" url = (ReplyNews items, log)
    /\ (List.length items <= 10)%nat
    /\ items = flat_map (fun u => pushed (fst (Capped.scrape_article selectors u)))
                 (firstn 10 (fst (discover (cheerio_load data) url (article selectors)))).
Proof.
  intros T H R S. unfold Capped.handler. cbn [String.eqb Ascii.eqb negb].
  change (("POST" =? "POST")%string) with true. cbn [negb].
  rewrite T, H. cbn [negb].
  unfold Capped.after_fetch. rewrite R. cbn [axios_get].
  change (validateStatus 200) with true. cbv iota.
  change (200 =? 403)%Z with false. change (200 =? 200)%Z with true.
  cbn [negb]. cbv iota.
  unfold Capped.scrape_page. rewrite S, Capped_scrape_articles_eq. cbn [fst snd].
  unfold Capped.limit. rewrite discover_capped_fst.
  eexists _, _. split; [reflexivity|]. split; [|reflexivity].
  etransitivity; [apply length_flat_map_pushed|].
  apply firstn_le_length.
Qed.

Lemma capped_reply_is_bounded_witness :
  exists items log,
    Capped.handler (P := Sample.world) "POST" "https://empty.example/"
      = (ReplyNews items, log)
    /\ (List.length items <= 10)%nat
    /\ items = flat_map
                 (fun u => pushed (fst (Capped.scrape_article (P := Sample.world)
                                          default_profile u)))
                 (firstn 10 (fst (discover (P := Sample.world)
                                    (cheerio_load (Platform := Sample.world) "")
                                    "https://empty.example/" (article default_profile)))).
Proof.
  apply (capped_reply_is_bounded Sample.world "https://empty.example/"
           "empty.example" "" default_profile); reflexivity.
Defined.

(** ** What the date pattern hands to [Date] *)

Section DateText.

Lemma star_k_some (p : ascii -> bool) (s : string) (k : string -> option string)
  (x : string) :
  star_k p s k = Some x ->
  exists s1 s2, s = s1 ++ s2
    /\ (forall c, In c (list_ascii_of_string s1) -> p c = true)
    /\ k s2 = Some x.
Proof.
  induction s as [|c s IH]; simpl.
  - intros K. exists "", "". simpl. intuition.
  - destruct (p c) eqn:Hp.
    + destruct (star_k p s k) as [y|] eqn:Hs.
      * intros E. injection E as ->.
        destruct (IH eq_refl) as [s1 [s2 [-> [Hall K]]]].
        exists (String c s1), s2. simpl. split; [reflexivity|]. split; [|exact K].
        intros c' [<- | Hin]; auto.
      * intros K. exists "", (String c s). simpl. intuition.
    + intros K. exists "", (String c s). simpl. intuition.
Qed.

(** The matcher is sound: a result of the continuation comes with a split
    of the subject whose first part the pattern denotes. *)
Lemma rmatch_some (r : regex) :
  forall (s : string) (k : string -> option string) (x : string),
    rmatch r s k = Some x ->
    exists s1 s2, s = s1 ++ s2 /\ den r s1 s2 /\ k s2 = Some x.
Proof.
  induction r as [|p|r1 IH1 r2 IH2|r1 IH1 r2 IH2|r1 IH1|p|]; intros s k x; simpl.
  - intros K. exists "", s. simpl. auto.
  - destruct s as [|c s]; [discriminate|].
    destruct (p c) eqn:Hp; [|discriminate].
    intros K. exists (String c ""), s. simpl. eauto.
  - intros H. apply IH1 in H. destruct H as [a [rest [-> [D1 H]]]].
    apply IH2 in H. destruct H as [b [s2 [-> [D2 K]]]].
    exists (a ++ b), s2. rewrite append_assoc. split; [reflexivity|].
    split; [|exact K]. exists a, b. auto.
  - destruct (rmatch r1 s k) as [y|] eqn:H1.
    + intros E. injection E as ->. apply IH1 in H1.
      destruct H1 as [s1 [s2 [E [D K]]]]. exists s1, s2. auto.
    + intros H. apply IH2 in H. destruct H as [s1 [s2 [E [D K]]]]. exists s1, s2. auto.
  - destruct (rmatch r1 s k) as [y|] eqn:H1.
    + intros E. injection E as ->. apply IH1 in H1.
      destruct H1 as [s1 [s2 [E [D K]]]]. exists s1, s2. auto.
    + intros K. exists "", s. simpl. auto.
  - apply star_k_some.
  - destruct s as [|c s]; [|discriminate].
    intros K. exists "", "". simpl. auto.
Qed.

Lemma length_append (a b : string) :
  String.length (a ++ b) = (String.length a + String.length b)%nat.
Proof. induction a; simpl; congruence. Qed.

Lemma substring_prefix (a b : string) :
  substring 0 (String.length a) (a ++ b) = a.
Proof.
  induction a as [|c a IH]; simpl.
  - destruct b; reflexivity.
  - rewrite IH. reflexivity.
Qed.

Lemma rmatch_whole (r : regex) (s rest : string) :
  rmatch r s Some = Some rest ->
  exists s1, s = s1 ++ rest /\ den r s1 rest
    /\ substring 0 (String.length s - String.length rest) s = s1.
Proof.
  intros H. apply rmatch_some in H. destruct H as [s1 [s2 [E [D K]]]].
  injection K as ->. exists s1. split; [exact E|]. split; [exact D|].
  rewrite E, length_append, Nat.add_sub. apply substring_prefix.
Qed.

(** [m[0]] is a piece of the subject that the pattern denotes. *)
Lemma exec_sound (r : regex) (s m : string) :
  exec r s = Some m ->
  exists pre post, s = pre ++ m ++ post /\ den r m post.
Proof.
  revert m. induction s as [|c s IH]; intros m.
  - cbn [exec]. destruct (rmatch r "" Some) as [rest|] eqn:H; [|discriminate].
    destruct (rmatch_whole _ _ _ H) as [s1 [E [D Sub]]].
    rewrite Sub. intros K. injection K as <-.
    exists "", rest. split; [exact E | exact D].
  - cbn [exec]. destruct (rmatch r (String c s) Some) as [rest|] eqn:H.
    + destruct (rmatch_whole _ _ _ H) as [s1 [E [D Sub]]].
      rewrite Sub. intros K. injection K as <-.
      exists "", rest. split; [exact E | exact D].
    + intros E. destruct (IH m E) as [pre [post [-> D]]].
      exists (String c pre), post. auto.
Qed.

Lemma den_digits1_2 (w rest : string) : den digits1_2 w rest -> digits_1_2 w.
Proof.
  unfold digits1_2, digits_1_2. cbn [den].
  intros [a [b [-> [Da [-> | Db]]]]].
  - left. rewrite append_nil_r. apply (den_digit a ""). exact Da.
  - right. apply (digits_app 1 1). exists a, b. split; [reflexivity|].
    split; [apply (den_digit a ""); exact Da | apply (den_digit b ""); exact Db].
Qed.

Lemma den_dash_or_slash (w rest : string) :
  den dash_or_slash w rest -> is_date_separator w.
Proof.
  unfold dash_or_slash, is_date_separator. cbn [den].
  intros [c [-> H]]. apply orb_true_iff in H.
  destruct H as [H|H]; apply Ascii.eqb_eq in H; subst c; auto.
Qed.

Lemma den_date_text (m rest : string) : den re_date_text m rest -> date_shaped m.
Proof.
  unfold re_date_text. cbn [den].
  intros [H|H];
    destruct H as [a [t1 [-> [Da [sep1 [t2 [-> [S1 [b [t3 [-> [Db [sep2 [c [-> [S2 Dc]]]]]]]]]]]]]]]];
    apply den_dash_or_slash in S1, S2; apply den_digits1_2 in Db;
    exists a, sep1, b, sep2, c; (split; [reflexivity|]); (split; [exact S1|]);
    (split; [exact S2|]).
  - left. apply den_digits4 in Da. apply den_digits1_2 in Dc. auto.
  - right. apply den_digits1_2 in Da. apply den_digits4 in Dc. auto.
Qed.

End DateText.

(** X5: a date the formatter returns is never invented: it is what [Date]
    makes of the whole text when the whole text parses, and otherwise what
    it makes of a piece of the text that has one of the two numeric date
    shapes.  The empty text is never parsed. *)
Theorem formatDate_from_text_or_pattern (P : Platform) (date iso : string) :
  formatDate date = iso -> iso <> "" ->
  date <> ""
  /\ (Date_toISOString date = Some iso
      \/ (Date_toISOString date = None
          /\ exists m, contains m date /\ date_shaped m
                       /\ Regex.exec re_date_text date = Some m
                       /\ Date_toISOString m = Some iso)).
Proof.
  unfold formatDate. destruct (truthy date) eqn:T; [|intros <- N; contradiction].
  split; [apply truthy_iff; exact T|]. revert H H0.
  destruct (Date_toISOString date) as [i|] eqn:D.
  - intros <- _. left. reflexivity.
  - destruct (Regex.exec re_date_text date) as [m|] eqn:E; [|intros <- N; contradiction].
    destruct (Date_toISOString m) as [i|] eqn:Dm; [|intros <- N; contradiction].
    intros <- _. right. split; [reflexivity|]. exists m.
    destruct (exec_sound _ _ _ E) as [pre [post [-> Dn]]].
    split; [exists pre, post; reflexivity|].
    split; [apply (den_date_text m post); exact Dn|]. auto.
Qed.

Lemma formatDate_from_text_or_pattern_witness :
  "Published 2024-05-01 by staff" <> ""
  /\ (Date_toISOString (Platform := Sample.world) "Published 2024-05-01 by staff"
        = Some "2024-05-01T00:00:00.000Z"
      \/ (Date_toISOString (Platform := Sample.world) "Published 2024-05-01 by staff" = None
          /\ exists m, contains m "Published 2024-05-01 by staff" /\ date_shaped m
                       /\ Regex.exec re_date_text "Published 2024-05-01 by staff" = Some m
                       /\ Date_toISOString (Platform := Sample.world) m
                          = Some "2024-05-01T00:00:00.000Z")).
Proof.
  apply (formatDate_from_text_or_pattern Sample.world); [reflexivity | discriminate].
Defined.

(** ** The article test and what surrounds the address *)

Lemma contains_context (needle pre u post : string) :
  contains needle u -> contains needle (pre ++ u ++ post).
Proof.
  intros [a [b ->]]. exists (pre ++ a), (b ++ post). normalize_append. reflexivity.
Qed.

(** X6: an address that passes the article test keeps passing it whatever
    is written before or after it, a query string or a fragment for
    instance. *)
Theorem looksLikeArticle_in_context (pre u post : string) :
  looksLikeArticle u = true -> looksLikeArticle (pre ++ u ++ post) = true.
Proof.
  unfold looksLikeArticle.
  rewrite !orb_true_iff, !includes_iff, !test_date_path_iff.
  intros [[[H|H]|H]|H].
  - left. left. left. apply contains_context. exact H.
  - left. left. right. apply contains_context. exact H.
  - left. right. apply contains_context. exact H.
  - right. destruct H as [a [y [m [d [b [-> H]]]]]].
    exists (pre ++ a), y, m, d, (b ++ post). split; [|exact H].
    normalize_append. reflexivity.
Qed.

Lemma looksLikeArticle_in_context_witness :
  looksLikeArticle ("https://site.com" ++ "/news/x" ++ "?utm=1#top") = true.
Proof. apply looksLikeArticle_in_context. reflexivity. Defined.

(** ** The first address of [data-srcset] *)

Section Srcset.

Lemma split_first_prefix (sep : ascii) (s : string) :
  exists rest, s = split_first sep s ++ rest.
Proof.
  induction s as [|c s [rest IH]]; simpl.
  - exists "". reflexivity.
  - destruct (Ascii.eqb c sep).
    + exists (String c s). reflexivity.
    + exists rest. simpl. congruence.
Qed.

Lemma split_first_free (sep : ascii) (s : string) (c : ascii) :
  In c (list_ascii_of_string (split_first sep s)) -> c <> sep.
Proof.
  induction s as [|c' s IH]; simpl; [intros []|].
  destruct (Ascii.eqb c' sep) eqn:E; simpl; [intros []|].
  intros [<- | H]; [|exact (IH H)].
  intros ->. rewrite Ascii.eqb_refl in E. discriminate.
Qed.

Lemma trimStart_suffix (s : string) : exists l, s = l ++ trimStart s.
Proof.
  induction s as [|c s [l IH]]; simpl.
  - exists "". reflexivity.
  - destruct (is_space c).
    + exists (String c l). simpl. congruence.
    + exists "". reflexivity.
Qed.

Lemma trimEnd_prefix (s : string) : exists r, s = trimEnd s ++ r.
Proof.
  induction s as [|c s [r IH]]; simpl.
  - exists "". reflexivity.
  - destruct (trimEnd s) as [|c' t] eqn:E.
    + destruct (is_space c).
      * exists (String c s). reflexivity.
      * exists r. simpl in *. congruence.
    + exists r. simpl in *. congruence.
Qed.

(** What [trim] returns is a piece of its argument. *)
Lemma trim_piece (s : string) : exists l r, s = l ++ trim s ++ r.
Proof.
  unfold trim. destruct (trimStart_suffix s) as [l El].
  destruct (trimEnd_prefix (trimStart s)) as [r Er].
  exists l, r. rewrite <- Er. exact El.
Qed.

Lemma In_append (c : ascii) (a b : string) :
  In c (list_ascii_of_string (a ++ b))
  <-> In c (list_ascii_of_string a) \/ In c (list_ascii_of_string b).
Proof.
  induction a as [|x a IH]; simpl.
  - tauto.
  - rewrite IH. tauto.
Qed.

Lemma contains_char (c : ascii) (s : string) :
  contains (String c "") s <-> In c (list_ascii_of_string s).
Proof.
  split.
  - intros [pre [post ->]]. apply In_append. right. simpl. auto.
  - induction s as [|x s IH]; simpl; [intros []|].
    intros [-> | H].
    + exists "", s. reflexivity.
    + destruct (IH H) as [pre [post ->]]. exists (String x pre), post. reflexivity.
Qed.

End Srcset.

(** X7: the address taken from [data-srcset] is a piece of the attribute
    value that holds neither a comma nor a space. *)
Theorem srcset_url_is_one_token (img : Element) (t : string) :
  first_srcset_url img = Some t ->
  exists v, attr "data-srcset" img = Some v
    /\ contains t v /\ ~ contains "," t /\ ~ contains " " t.
Proof.
  unfold first_srcset_url. destruct (attr "data-srcset" img) as [v|]; [|discriminate].
  intros E. injection E as <-. exists v. split; [reflexivity|].
  destruct (split_first_prefix "," v) as [r1 E1].
  destruct (trim_piece (split_first "," v)) as [l2 [r2 E2]].
  destruct (split_first_prefix " " (trim (split_first "," v))) as [r3 E3].
  split; [|split].
  - exists l2, (r3 ++ r2 ++ r1).
    rewrite E1 at 1. rewrite E2 at 1. rewrite E3 at 1.
    normalize_append. reflexivity.
  - intros H. apply contains_char in H.
    assert (K : In ","%char (list_ascii_of_string (split_first "," v))).
    { rewrite E2. apply In_append. right. apply In_append. left.
      rewrite E3. apply In_append. left. exact H. }
    exact (split_first_free _ _ _ K eq_refl).
  - intros H. apply contains_char in H.
    exact (split_first_free _ _ _ H eq_refl).
Qed.

Lemma srcset_url_is_one_token_witness :
  exists v, attr "data-srcset"
              (mkElement "" [("data-srcset", " /a.jpg 1x, /b.jpg 2x")] []) = Some v
    /\ contains "/a.jpg" v /\ ~ contains "," "/a.jpg" /\ ~ contains " " "/a.jpg".
Proof.
  apply (srcset_url_is_one_token
           (mkElement "" [("data-srcset", " /a.jpg 1x, /b.jpg 2x")] [])).
  reflexivity.
Defined.

(** ** The variants side by side *)

(** X8: when one selector of a list selects an element and the others
    select nothing, the overwriting loop of the base server and the
    first-match loop of the other two variants read the same value, for
    the title and, unless the selector starts with [meta], for author and
    date. *)
Theorem variants_agree_on_single_match (articleDoc : Document)
  (pre post : list string) (s : string) (el : Element) :
  (forall s', In s' pre -> first articleDoc s' = None) ->
  (forall s', In s' post -> first articleDoc s' = None) ->
  first articleDoc s = Some el ->
  title_of_selectors articleDoc (pre ++ s :: post)
    = Extended.first_match_text articleDoc (pre ++ s :: post)
  /\ (startsWith "meta" s = false ->
      field_of_selectors articleDoc (pre ++ s :: post)
        = Extended.first_match_text articleDoc (pre ++ s :: post)).
Proof.
  intros Hpre Hpost Hs.
  rewrite (first_match_text_first articleDoc pre post s el Hpre Hs).
  assert (T : forall s', first articleDoc s' = None -> trim (first_text articleDoc s') = "").
  { intros s' H. unfold first_text. rewrite H. reflexivity. }
  assert (M : forall s', first articleDoc s' = None -> meta_or_text articleDoc s' = None).
  { intros s' H. unfold meta_or_text. rewrite H. reflexivity. }
  assert (Es : trim (first_text articleDoc s) = trim (text el)).
  { unfold first_text. rewrite Hs. reflexivity. }
  split.
  - destruct (trim (text el)) as [|c t] eqn:V.
    + unfold title_of_selectors. apply fold_left_unchanged.
      intros x Hx acc. unfold title_step.
      apply in_app_or in Hx. destruct Hx as [Hx | [<- | Hx]].
      * rewrite (T x (Hpre x Hx)). reflexivity.
      * rewrite Es. reflexivity.
      * rewrite (T x (Hpost x Hx)). reflexivity.
    + apply title_of_selectors_last; [exact Es | discriminate |].
      intros s' Hs'. apply T. apply Hpost. exact Hs'.
  - intros Hmeta.
    assert (Ms : meta_or_text articleDoc s
                 = if truthy (trim (text el)) then Some (trim (text el)) else None).
    { unfold meta_or_text. rewrite Hs, Hmeta. reflexivity. }
    destruct (trim (text el)) as [|c t] eqn:V.
    + unfold field_of_selectors. apply fold_left_unchanged.
      intros x Hx acc. unfold field_step.
      apply in_app_or in Hx. destruct Hx as [Hx | [<- | Hx]].
      * rewrite (M x (Hpre x Hx)). reflexivity.
      * rewrite Ms. reflexivity.
      * rewrite (M x (Hpost x Hx)). reflexivity.
    + apply field_of_selectors_last; [exact Ms|].
      intros s' Hs'. apply M. apply Hpost. exact Hs'.
Qed.

Lemma variants_agree_on_single_match_witness :
  title_of_selectors (Sample.article_page " First ") (["h2"] ++ "h1" :: [".title"])
    = Extended.first_match_text (Sample.article_page " First ")
        (["h2"] ++ "h1" :: [".title"])
  /\ field_of_selectors (Sample.article_page " First ") (["h2"] ++ "h1" :: [".title"])
     = Extended.first_match_text (Sample.article_page " First ")
         (["h2"] ++ "h1" :: [".title"]).
Proof.
  destruct (variants_agree_on_single_match (Sample.article_page " First ")
              ["h2"] [".title"] "h1" (Sample.el " First ")) as [T F].
  - intros s' [<- | []]. reflexivity.
  - intros s' [<- | []]. reflexivity.
  - reflexivity.
  - split; [exact T | apply F; reflexivity].
Defined.

(** X9: the extended server and the capped function have no second
    chance for the title: when the first title selector that selects
    anything selects an element without text, the article is dropped,
    while the base server goes on to the later selectors and keeps the
    article under the title the last of them yields. *)
Theorem blank_first_title_drops_article (P : Platform) (hostname : string)
  (selectors : Profile) (articleUrl : string) (articleDoc : Document)
  (pre post : list string) (s : string) (el : Element) :
  title selectors = (pre ++ s :: post)%list ->
  (forall s', In s' pre -> first articleDoc s' = None) ->
  first articleDoc s = Some el -> trim (text el) = "" ->
  Extended.extract hostname selectors articleUrl articleDoc = None
  /\ (forall item, Capped.extract selectors articleUrl articleDoc <> inr (Some item))
  /\ (forall (post1 post2 : list string) (t v : string),
        post = (post1 ++ t :: post2)%list ->
        trim (first_text articleDoc t) = v -> v <> "" ->
        (forall s', In s' post2 -> trim (first_text articleDoc s') = "") ->
        exists item, Base.extract hostname selectors articleUrl articleDoc = Some item
                     /\ item_title item = v).
Proof.
  intros Et Hpre Hs Hblank.
  assert (F : Extended.first_match_text articleDoc (title selectors) = "").
  { rewrite Et, (first_match_text_first articleDoc pre post s el Hpre Hs). exact Hblank. }
  split; [|split].
  - unfold Extended.extract. rewrite F. reflexivity.
  - intros item. unfold Capped.extract. rewrite F.
    destruct (Capped.extract_image articleDoc articleUrl (image selectors)); discriminate.
  - intros post1 post2 t v Ep Hv Hne Hlater.
    assert (B : base_title articleDoc (title selectors) = v).
    { rewrite Et, Ep.
      replace (pre ++ s :: post1 ++ t :: post2)%list
        with ((pre ++ s :: post1) ++ t :: post2)%list
        by (rewrite <- app_assoc; reflexivity).
      apply base_title_last; assumption. }
    unfold Base.extract. rewrite B.
    apply truthy_iff in Hne. rewrite Hne. eexists. split; reflexivity.
Qed.

Lemma blank_first_title_drops_article_witness :
  Extended.extract (P := Desk.world) "site.com"
    (mkProfile [] [".a"; ".b"] [] [] []) Sample.good_url Desk.blank_first = None
  /\ exists item,
       Base.extract (P := Desk.world) "site.com"
         (mkProfile [] [".a"; ".b"] [] [] []) Sample.good_url Desk.blank_first = Some item
       /\ item_title item = "Beta".
Proof.
  destruct (blank_first_title_drops_article Desk.world "site.com"
              (mkProfile [] [".a"; ".b"] [] [] []) Sample.good_url Desk.blank_first
              [] [".b"] ".a" (Sample.el "  ") eq_refl) as [E [_ B]];
    [intros s' [] | reflexivity | reflexivity |].
  split; [exact E|].
  apply (B [] [] ".b" "Beta"); [reflexivity | reflexivity | discriminate | intros s' []].
Defined.

(** ** Content and image in the extended server *)

Section Content.

Context {P : Platform}.

Lemma join_blank_empty (texts : list string) :
  (forall t, In t texts -> t <> "") ->
  (Extended.join_blank texts = "" <-> texts = []).
Proof.
  intros H. destruct texts as [|t rest]; [simpl; tauto|].
  split; [|discriminate]. intros E. exfalso.
  apply (H t (or_introl eq_refl)).
  destruct rest; simpl in E; [exact E|].
  destruct t; [reflexivity | discriminate].
Qed.

Lemma nonblank_paragraphs_empty (d : Document) :
  Extended.join_blank
    (filter (fun t => negb (String.length t =? 0)%nat)
       (map (fun p => trim (text p)) (select d Extended.paragraphs))) = ""
  <-> forall p, In p (select d Extended.paragraphs) -> trim (text p) = "".
Proof.
  rewrite join_blank_empty.
  - split.
    + intros E p Hp.
      destruct (trim (text p)) as [|c t] eqn:V; [reflexivity|]. exfalso.
      assert (I : In (String c t)
                    (filter (fun t => negb (String.length t =? 0)%nat)
                       (map (fun p => trim (text p)) (select d Extended.paragraphs)))).
      { apply filter_In. split; [|reflexivity]. rewrite <- V.
        apply (in_map (fun p => trim (text p))). exact Hp. }
      rewrite E in I. exact I.
    + intros H. induction (select d Extended.paragraphs) as [|p ps IH]; [reflexivity|].
      simpl. rewrite (H p (or_introl eq_refl)). simpl. apply IH.
      intros q Hq. apply H. right. exact Hq.
  - intros t Ht. apply filter_In in Ht. destruct Ht as [_ Ht].
    destruct t; [discriminate | discriminate].
Qed.

End Content.

(** X10: in the extended server the removal of scripts, advertisements
    and the like from the content container happens before the image
    search, which therefore runs on the document without them; the
    content is that of the container when it has text, and it is [null]
    exactly when the container has none and no paragraph has any.
    Without a container the document is searched as it was loaded. *)
Theorem content_removal_precedes_image_search (P : Platform) (hostname : string)
  (selectors : Profile) (articleUrl : string) (articleDoc : Document)
  (r : ExtendedItem) :
  Extended.extract hostname selectors articleUrl articleDoc = Some r ->
  (forall sel, Extended.content_selector articleDoc = Some sel ->
     let stripped := cheerio_remove articleDoc sel Extended.unwanted in
     item_imageUrl (ext_item r)
       = or_null (extract_image stripped articleUrl (image selectors))
     /\ (trim (first_text stripped sel) <> "" ->
         ext_content r = Some (trim (first_text stripped sel)))
     /\ (ext_content r = None <->
         trim (first_text stripped sel) = ""
         /\ forall p, In p (select stripped Extended.paragraphs) -> trim (text p) = ""))
  /\ (Extended.content_selector articleDoc = None ->
      item_imageUrl (ext_item r)
        = or_null (extract_image articleDoc articleUrl (image selectors))
      /\ (ext_content r = None <->
          forall p, In p (select articleDoc Extended.paragraphs) -> trim (text p) = "")).
Proof.
  unfold Extended.extract.
  destruct (truthy (Extended.first_match_text articleDoc (title selectors)));
    [|discriminate].
  intros E. injection E as <-. cbn [ext_item ext_content item_imageUrl].
  assert (N : forall x, or_null x = None <-> x = "").
  { intros x. unfold or_null. destruct x; simpl; split; congruence. }
  unfold Extended.extract_content. split.
  - intros sel Hsel. rewrite Hsel. cbn [fst snd].
    destruct (truthy (trim (first_text (cheerio_remove articleDoc sel Extended.unwanted) sel)))
      eqn:T; cbn [fst snd].
    + split; [reflexivity|]. split.
      * intros _. unfold or_null. rewrite T. reflexivity.
      * rewrite N. apply truthy_iff in T. tauto.
    + split; [reflexivity|]. apply truthy_false_iff in T. split.
      * intros K. contradiction.
      * rewrite N, nonblank_paragraphs_empty. tauto.
  - intros Hsel. rewrite Hsel. cbn [fst snd truthy].
    split; [reflexivity|]. rewrite N. apply nonblank_paragraphs_empty.
Qed.

Lemma content_removal_precedes_image_search_witness :
  item_imageUrl
    (mkNewsItem "Headline" "Unknown" "2026-01-01T00:00:00.000Z" "site.com"
       Sample.good_url (Some "https://site.com/photo.jpg"))
  = or_null (extract_image (P := Desk.world) Desk.stripped Sample.good_url
               (image default_profile))
  /\ extract_image (P := Desk.world) Desk.with_container Sample.good_url
       (image default_profile) = "https://site.com/ad.jpg".
Proof.
  split; [|reflexivity].
  destruct (content_removal_precedes_image_search Desk.world "site.com" default_profile
              Sample.good_url Desk.with_container
              (mkExtendedItem
                 (mkNewsItem "Headline" "Unknown" "2026-01-01T00:00:00.000Z" "site.com"
                    Sample.good_url (Some "https://site.com/photo.jpg"))
                 (Some "Body text")) eq_refl) as [C _].
  exact (proj1 (C "article .content" eq_refl)).
Defined.

(** ** The page and the base server together *)

(** X12: when the page posts a non-empty address to the base server and
    the response arrives, the page ends with either the records or an
    error text, never with both and never with neither.  It shows the
    records exactly as the server sent them.  For an error it shows the
    text of the no-articles case when the status is in 201..299, the
    server's own text when the status is outside 200..299 and the
    response carries the body, and its own default text when such a
    response carries none. *)
Theorem page_shows_news_or_error (P : Platform) (carries_body : Z -> bool)
  (url : string) (st : Client.State) :
  truthy url = true -> carries_body 200%Z = true ->
  let st' := Client.scrapeNews url
               (Client.send carries_body (fst (Base.handler url))) st in
  Client.ui_loading st' = false
  /\ (Client.ui_news st' = [] <-> Client.ui_error st' <> "")
  /\ (forall news, fst (Base.handler url) = ReplyNews news ->
        Client.ui_news st' = news /\ Client.ui_error st' = "")
  /\ (forall status error, fst (Base.handler url) = ReplyError status error ->
        Client.ui_news st' = []
        /\ Client.ui_error st'
           = if validateStatus_default status then msg_no_articles
             else if carries_body status then error
             else Client.msg_failed_default).
Proof.
  intros T B st'. subst st'. unfold Client.scrapeNews, Client.send. rewrite T. cbn [negb].
  destruct (Base_handler_shape url) as [[item [items E]] | [status [error [E [N M]]]]];
    rewrite E.
  - cbn [reply_status]. rewrite B.
    change (validateStatus_default 200) with true. cbv iota.
    cbn [Client.ui_news Client.ui_error Client.ui_loading].
    split; [reflexivity|]. split; [split; [discriminate | intros K; contradiction]|].
    split.
    + intros news K. injection K as <-. auto.
    + intros s e K. discriminate K.
  - cbn [reply_status].
    assert (O : or_else error Client.msg_failed_default = error).
    { unfold or_else. apply truthy_iff in M. rewrite M. reflexivity. }
    destruct (validateStatus_default status) eqn:V, (carries_body status) eqn:C;
      cbn [Client.ui_news Client.ui_error Client.ui_loading]; rewrite ?O;
      (split; [reflexivity|]);
      (split; [split; [intros _; try exact M; discriminate | reflexivity]|]);
      (split; [intros news K; discriminate K|]);
      intros s e K; injection K as <- <-; rewrite V, ?C; auto.
Qed.

Lemma page_shows_news_or_error_witness :
  let carries_body := fun status => negb ((status =? 204)%Z || (status =? 304)%Z) in
  (let st' := Client.scrapeNews "https://unchanged.example/"
                (Client.send carries_body
                   (fst (Base.handler (P := Desk.world) "https://unchanged.example/")))
                (Client.mkState [] "" false) in
   Client.ui_news st' = [] /\ Client.ui_error st' = Client.msg_failed_default)
  /\ (let st' := Client.scrapeNews "https://blocked.example/"
                   (Client.send carries_body
                      (fst (Base.handler (P := Desk.world) "https://blocked.example/")))
                   (Client.mkState [] "" false) in
      Client.ui_news st' = [] /\ Client.ui_error st' = msg_forbidden)
  /\ (let st' := Client.scrapeNews "https://relay.example/"
                   (Client.send carries_body
                      (fst (Base.handler (P := Desk.world) "https://relay.example/")))
                   (Client.mkState [] "" false) in
      Client.ui_news st' = [] /\ Client.ui_error st' = msg_no_articles).
Proof.
  intros carries_body. split; [|split].
  - apply (proj2 (proj2 (proj2 (page_shows_news_or_error Desk.world carries_body
                                  "https://unchanged.example/"
                                  (Client.mkState [] "" false) eq_refl eq_refl)))
             304%Z (msg_failed_status 304)).
    reflexivity.
  - apply (proj2 (proj2 (proj2 (page_shows_news_or_error Desk.world carries_body
                                  "https://blocked.example/"
                                  (Client.mkState [] "" false) eq_refl eq_refl)))
             403%Z msg_forbidden).
    reflexivity.
  - apply (proj2 (proj2 (proj2 (page_shows_news_or_error Desk.world carries_body
                                  "https://relay.example/"
                                  (Client.mkState [] "" false) eq_refl eq_refl)))
             204%Z (msg_failed_status 204)).
    reflexivity.
Defined.

(** ** The registry is read by exact host name *)

Lemma dotted_differs (hostname key : string) :
  contains "." hostname -> includes "." key = false ->
  String.eqb hostname key = false.
Proof.
  intros H K. destruct (String.eqb hostname key) eqn:E; [|reflexivity].
  apply String.eqb_eq in E. subst key. apply includes_iff in H. congruence.
Qed.

(** X13: the registry is read by the exact host name: every host name
    with a dot in it other than [abs-cbn.com] itself, its subdomains
    included, gets the default profile, in the servers and in the capped
    function alike. *)
Theorem dotted_hostname_gets_default (hostname : string) :
  contains "." hostname -> hostname <> "abs-cbn.com" ->
  profileFor hostname = JsProfile default_profile
  /\ Capped.profileFor hostname = JsProfile default_profile.
Proof.
  intros H N.
  assert (A : String.eqb hostname "abs-cbn.com" = false)
    by (apply String.eqb_neq; exact N).
  assert (D : String.eqb hostname "default" = false)
    by (apply dotted_differs; [exact H | reflexivity]).
  assert (K : existsb (String.eqb hostname) object_prototype_keys = false).
  { assert (G : forall keys, forallb (fun k => negb (includes "." k)) keys = true ->
                existsb (String.eqb hostname) keys = false).
    { induction keys as [|k keys IH]; [reflexivity|]. cbn [forallb existsb].
      intros F. apply andb_true_iff in F. destruct F as [Fk F].
      apply negb_true_iff in Fk.
      rewrite (dotted_differs hostname k H Fk). exact (IH F). }
    apply G. reflexivity. }
  unfold profileFor, Capped.profileFor, profileFor_in, js_get,
    websiteSelectors, websiteSelectors_capped.
  cbn [assoc]. rewrite A, D, K. cbn [js_or assoc String.eqb].
  split; reflexivity.
Qed.

Lemma dotted_hostname_gets_default_witness :
  profileFor "news.abs-cbn.com" = JsProfile default_profile
  /\ Capped.profileFor "news.abs-cbn.com" = JsProfile default_profile.
Proof.
  apply dotted_hostname_gets_default; [|discriminate].
  exists "news", "abs-cbn.com". reflexivity.
Defined.

(** ** What the article loop writes to the console *)

(** X14: the base server writes one error line for each link whose
    request axios throws (no response, or a status outside 200..499), in
    the order of the links, and nothing else: an article answered with a
    status in 200..499 other than 200 is skipped without a line. *)
Theorem article_loop_log (P : Platform) (hostname : string) (selectors : Profile)
  (links : list string) :
  snd (Base.scrape_articles hostname selectors links)
  = map LogErrorFetchingArticle
      (filter (fun u => rejected validateStatus (http u)) links)
  /\ (forall status data,
        rejected validateStatus (HttpResponse status data)
        = negb ((200 <=? status)%Z && (status <? 500)%Z)).
Proof.
  split.
  - rewrite Base_scrape_articles_eq. cbn [snd].
    induction links as [|u links IH]; [reflexivity|].
    cbn [flat_map filter]. rewrite IH.
    unfold Base.scrape_article, rejected.
    destruct (axios_get validateStatus (http u)) as [e|[status data]]; cbn [snd].
    + reflexivity.
    + destruct (status =? 200)%Z; reflexivity.
  - intros status data. unfold rejected, axios_get, validateStatus.
    destruct ((200 <=? status)%Z && (status <? 500)%Z); reflexivity.
Qed.
